(** * PAM.py: the pure-Python fallback of the pam_python test shim

    A shallow embedding of [src/PAM.py]: the transaction handle
    ([PamHandle_type]), the environment mapping ([PamEnvMapping]), the
    conversation bridge and the dispatcher ([pam]), with the properties the
    specification states about them.

    Python objects are modelled by value.  Attribute dictionaries and the
    dictionaries the code builds are finite maps; calls that may raise return
    a [pyresult]; the methods of [pam], which update [self], pass the state of
    the object explicitly. *)

From Stdlib Require Import ZArith Ascii List Bool Lia.
From stdpp Require Import base option gmap strings list fin_maps.

Local Open Scope Z_scope.
Set Warnings "-register-all".

(** ** Python values *)

(** The values that reach the code.  [PyInst] is an instance of a class with
    plain attributes (message and response objects); [PyCallable] stands for
    an opaque callable such as a conversation function; [PyEnv] is a
    [PamEnvMapping] with its [_d] dictionary.  Floating point numbers are not
    part of the model. *)
Inductive pyval : Type :=
| PyNone
| PyBool (b : bool)
| PyInt (z : Z)
| PyStr (s : string)
| PyList (items : list pyval)
| PyTuple (items : list pyval)
| PyDict (items : list (pyval * pyval))
| PyInst (cls : string) (fields : list (string * pyval))
| PyClass (name : string)
| PyCallable (id : nat)
| PyEnv (d : gmap string string).

(** Exception classes.  The first group derives from [Exception]; the second
    derives from [BaseException] only, which [except Exception] lets pass.
    [UserException] and [UserBaseException] are the classes the other
    constructors do not name, of the library ([OSError], say) or of the
    loaded module. *)
Inductive exc_class : Type :=
| AttributeError | TypeError | ValueError | KeyError | RuntimeError
| ImportError | UserException (name : string)
| SystemExit | KeyboardInterrupt | GeneratorExit
| UserBaseException (name : string).

Definition derives_Exception (c : exc_class) : bool :=
  match c with
  | SystemExit | KeyboardInterrupt | GeneratorExit | UserBaseException _ => false
  | _ => true
  end.

(** [class PamException(Exception)] keeps [pam_result] beside its [args];
    [class error(Exception)] has [args = (msg, code)]; [Exc] is any other
    exception with its [args]. *)
Inductive pyexc : Type :=
| PamException (pam_result : pyval) (args : list pyval)
| error (msg code : pyval)
| Exc (cls : exc_class) (args : list pyval).

Inductive pyresult (A : Type) : Type :=
| Return (a : A)
| Raise (e : pyexc).
Arguments Return {A} a.
Arguments Raise {A} e.

Definition bind {A B} (r : pyresult A) (k : A -> pyresult B) : pyresult B :=
  match r with
  | Return a => k a
  | Raise e => Raise e
  end.

(** [isinstance(v, int)]: [bool] is a subclass of [int]. *)
Definition is_int (v : pyval) : bool :=
  match v with PyInt _ | PyBool _ => true | _ => false end.

(** [isinstance(v, str)] *)
Definition is_str (v : pyval) : bool :=
  match v with PyStr _ => true | _ => false end.

(** [isinstance(v, dict)] *)
Definition is_dict (v : pyval) : bool :=
  match v with PyDict _ => true | _ => false end.

(** [isinstance(v, (list, tuple))] *)
Definition is_sequence (v : pyval) : bool :=
  match v with PyList _ | PyTuple _ => true | _ => false end.

(** The numeric value of an [int] or [bool]. *)
Definition int_value (v : pyval) : option Z :=
  match v with
  | PyInt z => Some z
  | PyBool b => Some (if b then 1 else 0)
  | _ => None
  end.

(** [a == b] for an [int] (or [bool]) [a]: numeric against another [int] or
    [bool], false against every other value of the model. *)
Definition int_eq (a b : pyval) : bool :=
  match int_value a, int_value b with
  | Some x, Some y => x =? y
  | _, _ => false
  end.

(** Truth value of an object, as [if v:] tests it.  A [PamEnvMapping]
    defines [__len__], so it is true when it is not empty. *)
Definition truthy (v : pyval) : bool :=
  match v with
  | PyNone => false
  | PyBool b => b
  | PyInt z => negb (z =? 0)
  | PyStr s => negb (String.eqb s "")
  | PyList l | PyTuple l => negb (Nat.eqb (length l) 0)
  | PyDict l => negb (Nat.eqb (length l) 0)
  | PyInst _ _ | PyClass _ | PyCallable _ => true
  | PyEnv d => negb (Nat.eqb (size d) 0)
  end.

(** [type(v).__name__] *)
Definition type_name (v : pyval) : string :=
  match v with
  | PyNone => "NoneType"
  | PyBool _ => "bool"
  | PyInt _ => "int"
  | PyStr _ => "str"
  | PyList _ => "list"
  | PyTuple _ => "tuple"
  | PyDict _ => "dict"
  | PyInst cls _ => cls
  | PyClass _ => "type"
  | PyCallable _ => "function"
  | PyEnv _ => "PamEnvMapping"
  end.

(** [hash(v)] succeeds: lists and dictionaries are not hashable, a tuple is
    when its items are. *)
Fixpoint hashable (v : pyval) : bool :=
  match v with
  | PyList _ | PyDict _ => false
  | PyTuple l => forallb hashable l
  | _ => true
  end.

(** ** Strings *)

(** [s.startswith(p)] *)
Fixpoint startswith (s p : string) {struct p} : bool :=
  match p with
  | EmptyString => true
  | String a p' =>
      match s with
      | EmptyString => false
      | String b s' => Ascii.eqb a b && startswith s' p'
      end
  end.

(** [s.endswith(p)] *)
Definition endswith (s p : string) : bool :=
  let n := String.length s in
  let m := String.length p in
  (m <=? n)%nat && String.eqb (Stdlib.Strings.String.substring (n - m) m s) p.

(** [c in s] for a one-character [c] *)
Fixpoint contains_char (c : ascii) (s : string) : bool :=
  match s with
  | EmptyString => false
  | String a s' => Ascii.eqb a c || contains_char c s'
  end.

(** A character of a string is a code point below 256.  Of these,
    [str.split()] treats as white space: tab, line feed, vertical tab, form
    feed, carriage return, the four separators 28 to 31, the space, the
    next-line control 133 and the no-break space 160. *)
Definition py_isspace (c : ascii) : bool :=
  let n := nat_of_ascii c in
  ((9 <=? n) && (n <=? 13) || (28 <=? n) && (n <=? 32)
   || (n =? 133) || (n =? 160))%nat.

(** [s.split()]: the maximal runs of characters that are not white space.
    [cur] is the run being read, in reverse. *)
Definition rev_string (cs : list ascii) : string :=
  fold_left (fun acc c => String c acc) cs EmptyString.

Fixpoint split_ws (cur : list ascii) (s : string) : list string :=
  match s with
  | EmptyString =>
      match cur with
      | [] => []
      | _ => [rev_string cur]
      end
  | String c s' =>
      if py_isspace c then
        match cur with
        | [] => split_ws [] s'
        | _ => rev_string cur :: split_ws [] s'
        end
      else split_ws (c :: cur) s'
  end.

Definition str_split (s : string) : list string := split_ws [] s.

(** The lines of a text file.  A line ends at a line feed or a carriage
    return; compared with Python's universal newlines this only adds an empty
    line inside each carriage return and line feed pair, and an empty line
    has no fields. *)
Fixpoint lines_from (cur : list ascii) (s : string) : list string :=
  match s with
  | EmptyString =>
      match cur with
      | [] => []
      | _ => [rev_string cur]
      end
  | String c s' =>
      if Ascii.eqb c "010" || Ascii.eqb c "013"
      then rev_string cur :: lines_from [] s'
      else lines_from (c :: cur) s'
  end.

Definition file_lines (content : string) : list string := lines_from [] content.

(** ** class PamHandle_type *)

(** The instance dictionary of a transaction handle.  Attribute reads go to
    this dictionary first and to [__getattr__] when the name is not there;
    none of the names the code reads is a method of the class. *)
Abbreviation PamHandle := (gmap string pyval).

Module PamHandle_type.

(** [_item_const] in [__setattr__] *)
Definition _item_const (name : string) : option string :=
  if String.eqb name "tty" then Some "PAM_TTY"
  else if String.eqb name "user" then Some "PAM_USER"
  else if String.eqb name "rhost" then Some "PAM_RHOST"
  else if String.eqb name "ruser" then Some "PAM_RUSER"
  else if String.eqb name "user_prompt" then Some "PAM_USER_PROMPT"
  else if String.eqb name "xdisplay" then Some "PAM_XDISPLAY"
  else if String.eqb name "authtok_type" then Some "PAM_AUTHTOK_TYPE"
  else None.

(** [item_names] in [__getattr__] *)
Definition item_names : list string :=
  ["authtok"; "authtok_type"; "oldauthtok"; "rhost"; "ruser"; "service";
   "tty"; "user"; "user_prompt"; "xdisplay"; "xauthdata"].

(** [__getattr__(self, name)], called when [name] is not in the instance
    dictionary. *)
Definition __getattr__ (name : string) : pyresult pyval :=
  if existsb (String.eqb name) item_names then Return PyNone
  else if String.eqb name "XAuthData" then Return (PyClass "XAuthData")
  else if String.eqb name "Message" then Return (PyClass "Message")
  else if String.eqb name "Response" then Return (PyClass "Response")
  else Raise (Exc AttributeError [PyStr name]).

(** The attribute read [self.name], for a name that is no method of the
    class and none of the three names the interpreter keeps itself
    ([slot_name] below). *)
Definition attr (h : PamHandle) (name : string) : pyresult pyval :=
  match h !! name with
  | Some v => Return v
  | None => __getattr__ name
  end.

(** [getattr(self, name, default)]: as [attr], with [default] in place of an
    [AttributeError]. *)
Definition getattr (h : PamHandle) (name : string) (default : pyval) : pyval :=
  match attr h name with
  | Return v => v
  | Raise _ => default
  end.

(** The three attributes of an instance that the interpreter keeps itself,
    outside the instance dictionary. *)
Definition slot_name (name : string) : bool :=
  String.eqb name "__class__" || String.eqb name "__dict__"
  || String.eqb name "__weakref__".

(** The attributes of an instance whose [__dict__] a dictionary becomes: its
    items with a string for key, a later item before an earlier one. *)
Definition dict_attributes (items : list (pyval * pyval)) : PamHandle :=
  fold_left (fun h kv =>
               match kv.1 with
               | PyStr k => <[k := kv.2]> h
               | _ => h
               end) items ∅.

(** [__class__] can be bound to a class that is laid out as
    [PamHandle_type] is: a class written without a base class.  The two
    exception classes of the file are not; a class of another name stands
    for a class written like the value classes of the handle. *)
Definition layout_compatible (cls : string) : bool :=
  negb (String.eqb cls "PamException" || String.eqb cls "error").

(** [object.__setattr__(self, name, value)]: a write to the instance
    dictionary, but for the three names the interpreter keeps itself.
    [__weakref__] cannot be written; [__dict__] takes a dictionary, which
    replaces every attribute of the instance; [__class__] takes a class of
    the same layout, which leaves the dictionary as it is (the object is of
    that class from then on, and the methods of [PamHandle_type] are no
    longer its own). *)
Definition object_setattr (name : string) (value : pyval) (h : PamHandle)
  : pyresult PamHandle :=
  if String.eqb name "__weakref__" then
    Raise (Exc AttributeError
      [PyStr "attribute '__weakref__' of 'PamHandle_type' objects is not writable"])
  else if String.eqb name "__dict__" then
    match value with
    | PyDict items => Return (dict_attributes items)
    | _ => Raise (Exc TypeError
             [PyStr ("__dict__ must be set to a dictionary, not a '" +:+
                     type_name value +:+ "'")])
    end
  else if String.eqb name "__class__" then
    match value with
    | PyClass cls =>
        if layout_compatible cls then Return h
        else Raise (Exc TypeError
               [PyStr ("__class__ assignment: '" +:+ cls +:+
                       "' object layout differs from 'PamHandle_type'")])
    | _ => Raise (Exc TypeError
             [PyStr ("__class__ must be set to a class, not '" +:+
                     type_name value +:+ "' object")])
    end
  else Return (<[name := value]> h).

(** [__setattr__(self, name, value)] *)
Definition __setattr__ (name : string) (value : pyval) (h : PamHandle)
  : pyresult PamHandle :=
  if startswith name "_" then object_setattr name value h
  else if truthy (getattr h "_constants_locked" (PyBool false))
          && (startswith name "PAM_" || startswith name "_PAM_")
  then Raise (Exc AttributeError
         [PyStr ("attribute '" +:+ name +:+
                 "' of 'PamHandle_type' objects is not writable")])
  else
    match _item_const name with
    | Some const =>
        if is_str value then object_setattr name value h
        else Raise (Exc TypeError
               [PyStr ("PAM item " +:+ const +:+ " must be set to a string")])
    | None => object_setattr name value h
    end.

(** The handle is sealed: [_constants_locked] reads as true. *)
Definition sealed (h : PamHandle) : Prop :=
  truthy (getattr h "_constants_locked" (PyBool false)) = true.

(** [__init__(self, module_path, user, conv)]: six assignments through
    [__setattr__], on an empty dictionary. *)
Definition __init__ (module_path user conv : pyval) : pyresult PamHandle :=
  bind (__setattr__ "module" PyNone ∅) (fun h =>
  bind (__setattr__ "module_path" module_path h) (fun h =>
  bind (__setattr__ "user" user h) (fun h =>
  bind (__setattr__ "conv" conv h) (fun h =>
  bind (__setattr__ "exception" (PyClass "PamException") h) (fun h =>
  __setattr__ "_constants_locked" (PyBool false) h))))).

(** The loop of [_populate_constants]: [object.__setattr__(self, k, v)] for
    each item, which raises a [TypeError] at a key that is not a string and
    leaves the earlier items written. *)
Fixpoint write_constants (items : list (pyval * pyval)) (h : PamHandle)
  : pyresult unit * PamHandle :=
  match items with
  | [] => (Return tt, h)
  | (PyStr k, v) :: rest =>
      match object_setattr k v h with
      | Return h' => write_constants rest h'
      | Raise e => (Raise e, h)
      end
  | (k, _) :: _ =>
      (Raise (Exc TypeError
         [PyStr ("attribute name must be string, not '" +:+ type_name k +:+ "'")]),
       h)
  end.

(** [_populate_constants(self, user_mod)], given the module's
    [PAM_CONSTANTS] ([None] when it has none). *)
Definition _populate_constants (consts : pyval) (h : PamHandle)
  : pyresult unit * PamHandle :=
  let '(r, h1) :=
    match consts with
    | PyDict items => write_constants items h
    | _ =>
        match object_setattr "PAM_SUCCESS" (PyInt 0) h with
        | Return h' => (Return tt, h')
        | Raise e => (Raise e, h)
        end
    end in
  match r with
  | Return _ =>
      match object_setattr "_constants_locked" (PyBool true) h1 with
      | Return h2 => (Return tt, h2)
      | Raise e => (Raise e, h1)
      end
  | Raise e => (Raise e, h1)
  end.

(** The classes [__getattr__] returns: [Message(msg_style, msg)] *)
Definition Message (msg_style msg : pyval) : pyresult pyval :=
  if negb (is_int msg_style) then
    Raise (Exc TypeError
      [PyStr ("Message() argument 1 must be int, not " +:+ type_name msg_style)])
  else if negb (is_str msg) then
    Raise (Exc TypeError
      [PyStr ("Message() argument 2 must be string, not " +:+
              match msg with PyNone => "None" | _ => type_name msg end)])
  else Return (PyInst "Message" [("msg", msg); ("msg_style", msg_style)]).

(** [Response(resp, resp_retcode)] *)
Definition Response (resp resp_retcode : pyval) : pyresult pyval :=
  Return (PyInst "Response" [("resp", resp); ("resp_retcode", resp_retcode)]).

(** [XAuthData(name, data)] *)
Definition XAuthData (name data : pyval) : pyresult pyval :=
  if negb (is_str name) then
    Raise (Exc TypeError
      [PyStr ("XAuthData() argument 1 must be string, not " +:+
              match name with PyNone => "None" | _ => type_name name end)])
  else if negb (is_str data) then
    Raise (Exc TypeError
      [PyStr ("XAuthData() argument 2 must be string, not " +:+
              match data with PyNone => "None" | _ => type_name data end)])
  else Return (PyInst "XAuthData" [("name", name); ("data", data)]).

(** Calling the class [__getattr__] gives for [name] with two arguments. *)
Definition construct (name : string) (a b : pyval) : pyresult pyval :=
  bind (__getattr__ name) (fun c =>
    match c with
    | PyClass "Message" => Message a b
    | PyClass "Response" => Response a b
    | PyClass "XAuthData" => XAuthData a b
    | _ => Raise (Exc TypeError
             [PyStr ("'" +:+ type_name c +:+ "' object is not callable")])
    end).

(** *** conversation *)

(** An argument of a call to the conversation function: the handle itself or
    a value. *)
Inductive pyarg : Type :=
| ArgHandle (h : PamHandle)
| ArgVal (v : pyval).

(** [hasattr(m, name)] and [getattr(m, name, default)] on a value: only
    instances carry attributes of their own. *)
Fixpoint assoc (name : string) (fields : list (string * pyval)) : option pyval :=
  match fields with
  | [] => None
  | (k, v) :: rest => if String.eqb k name then Some v else assoc name rest
  end.

Definition val_attr (m : pyval) (name : string) : option pyval :=
  match m with
  | PyInst _ fields => assoc name fields
  | _ => None
  end.

(** [class Resp] *)
Definition Resp (resp resp_retcode : pyval) : pyval :=
  PyInst "Resp" [("resp", resp); ("resp_retcode", resp_retcode)].

Section Conversation.

(** [str(v)] and the application of a callable object to its arguments
    belong to the interpreter and to the application. *)
Variable py_str : pyval -> string.
Variable call : pyval -> list pyarg -> pyresult pyval.

(** The three call shapes, each tried when the one before raised a
    [TypeError]. *)
Definition call_conv (h : PamHandle) (convs : pyval) : pyresult pyval :=
  bind (attr h "conv") (fun conv =>
    match call conv [ArgHandle h; ArgVal convs] with
    | Raise (Exc TypeError _) =>
        match call conv [ArgVal convs] with
        | Raise (Exc TypeError _) =>
            call conv [ArgHandle h; ArgVal convs; ArgVal PyNone]
        | r => r
        end
    | r => r
    end).

(** [iterable]: the replies in the value the function returned. *)
Definition replies (res : pyval) : list pyval :=
  match res with
  | PyList l | PyTuple l => l
  | _ => [res]
  end.

(** The body of the loop over [iterable]. *)
Definition to_response (m : pyval) : pyval :=
  match val_attr m "msg" with
  | Some msg =>
      Resp msg (match val_attr m "msg_style" with
                | Some s => s
                | None => PyInt 0
                end)
  | None =>
      match m with
      | PyList (a :: b :: _) | PyTuple (a :: b :: _) => Resp a b
      | _ => Resp (PyStr (py_str m)) (PyInt 0)
      end
  end.

(** [conversation(self, convs)] *)
Definition conversation (h : PamHandle) (convs : pyval) : pyresult pyval :=
  bind (call_conv h convs) (fun res =>
    let responses := map to_response (replies res) in
    if negb (is_sequence convs) then
      match responses with
      | [] => Return PyNone
      | r :: _ => Return r
      end
    else Return (PyTuple responses)).

End Conversation.

(** *** get_user and strerror *)

(** [get_user(self, prompt)]; [prompt] is not used. *)
Definition get_user (h : PamHandle) : pyresult pyval :=
  match getattr h "user" PyNone with
  | PyNone => Return PyNone
  | _ => attr h "user"
  end.

(** [debug_magic] in [strerror] *)
Definition debug_magic : Z := 0x4567abcd.

(** [msgs.get(code, 'Unknown error')]: the dictionary hashes [code], and an
    [int] or [bool] finds the key it is equal to. *)
Definition msgs_get (code : pyval) : pyresult pyval :=
  if negb (hashable code) then
    Raise (Exc TypeError
      [PyStr ("unhashable type: '" +:+ type_name code +:+ "'")])
  else
    Return (PyStr
      match int_value code with
      | Some 0 => "Success"
      | Some 1 => "Failed to load module"
      | Some 30 => "Conversation is waiting for event"
      | Some 31 => "Application needs to call libpam again"
      | _ => "Unknown error"
      end).

Section Strerror.

(** What [raise c(pam_res, 'debug')] raises for a callable [c] that is not
    one of the classes of this file belongs to that callable. *)
Variable raised_by : pyval -> list pyval -> pyexc.

(** [raise self.exception(pam_res, 'debug')].  The classes of the handle
    build values that are no exceptions, so raising them is a [TypeError]. *)
Definition raise_debug (h : PamHandle) (pam_res : Z) : pyresult pyval :=
  bind (attr h "exception") (fun c =>
    let no_exception :=
      Exc TypeError [PyStr "exceptions must derive from BaseException"] in
    match c with
    | PyClass "PamException" =>
        Raise (PamException (PyInt pam_res) [PyStr "debug"])
    | PyClass "Message" =>
        bind (Message (PyInt pam_res) (PyStr "debug")) (fun _ =>
          Raise no_exception)
    | PyClass "Response" =>
        bind (Response (PyInt pam_res) (PyStr "debug")) (fun _ =>
          Raise no_exception)
    | PyClass "XAuthData" =>
        bind (XAuthData (PyInt pam_res) (PyStr "debug")) (fun _ =>
          Raise no_exception)
    | PyClass _ | PyCallable _ =>
        Raise (raised_by c [PyInt pam_res; PyStr "debug"])
    | _ => Raise (Exc TypeError
             [PyStr ("'" +:+ type_name c +:+ "' object is not callable")])
    end).

(** [strerror(self, code)] *)
Definition strerror (h : PamHandle) (code : pyval) : pyresult pyval :=
  match int_value code with
  | Some c =>
      if debug_magic <=? c then
        let max_vals := getattr h "_PAM_RETURN_VALUES" (PyInt 32) in
        match int_value max_vals with
        | Some n =>
            if c <? debug_magic + n then
              let pam_res := c - debug_magic in
              if negb (pam_res =? 0) then raise_debug h pam_res
              else msgs_get code
            else msgs_get code
        | None =>
            Raise (Exc TypeError
              [PyStr ("unsupported operand type(s) for +: 'int' and '" +:+
                      type_name max_vals +:+ "'")])
        end
      else msgs_get code
  | None => msgs_get code
  end.

End Strerror.

End PamHandle_type.

(** ** class PamEnvMapping *)

Module PamEnvMapping.

(** The dictionary [self._d].  Only [__setitem__] writes to it, after it has
    checked that key and value are strings. *)
Abbreviation t := (gmap string string).

(** [__init__] *)
Definition __init__ : t := ∅.

(** [__len__] *)
Definition __len__ (d : t) : nat := size d.

(** The three checks on a key that [__getitem__] and [__setitem__] share. *)
Definition check_key (key : pyval) : pyresult string :=
  match key with
  | PyStr k =>
      if String.eqb k "" then
        Raise (Exc ValueError [PyStr "PAM environment key mustn't be 0 length"])
      else if contains_char "=" k then
        Raise (Exc ValueError [PyStr "PAM environment key can't contain '='"])
      else Return k
  | _ => Raise (Exc TypeError [PyStr "PAM environment key must be a string"])
  end.

(** [__getitem__(self, key)] *)
Definition __getitem__ (key : pyval) (d : t) : pyresult pyval :=
  bind (check_key key) (fun k =>
    match d !! k with
    | Some v => Return (PyStr v)
    | None => Raise (Exc KeyError [key])
    end).

(** [__setitem__(self, key, value)] *)
Definition __setitem__ (key value : pyval) (d : t) : pyresult t :=
  bind (check_key key) (fun k =>
    match value with
    | PyStr v => Return (<[k := v]> d)
    | _ => Raise (Exc TypeError [PyStr "PAM environment value must be a string"])
    end).

(** A dictionary lookup hashes its key first: lists and dictionaries, and
    tuples that hold one, raise a [TypeError]. *)
Definition unhashable (key : pyval) : pyexc :=
  Exc TypeError [PyStr ("unhashable type: '" +:+ type_name key +:+ "'")].

(** [key in self._d]: a hashable key that is not a string is never in the
    dictionary. *)
Definition __contains__ (key : pyval) (d : t) : pyresult bool :=
  match key with
  | PyStr k => Return (bool_decide (is_Some (d !! k)))
  | _ => if hashable key then Return false else Raise (unhashable key)
  end.

(** [__delitem__(self, key)] *)
Definition __delitem__ (key : pyval) (d : t) : pyresult t :=
  bind (__contains__ key d) (fun present =>
    match key with
    | PyStr k => if present then Return (delete k d) else Raise (Exc KeyError [key])
    | _ => Raise (Exc KeyError [key])
    end).

(** [get(self, key, default)] *)
Definition get (key default : pyval) (d : t) : pyresult pyval :=
  match key with
  | PyStr k =>
      match d !! k with
      | Some v => Return (PyStr v)
      | None => Return default
      end
  | _ => if hashable key then Return default else Raise (unhashable key)
  end.

(** A key [__setitem__] accepts: not empty and without [=]. *)
Definition valid_key (k : string) : bool :=
  negb (String.eqb k "") && negb (contains_char "=" k).

(** Every key of the dictionary is one that [__setitem__] accepts. *)
Definition well_keyed (d : t) : Prop :=
  forall k v, d !! k = Some v -> valid_key k = true.

End PamEnvMapping.

(** ** The loaded module *)

(** A module entry point, called as [func(self._pamh, flags, argv)]: it
    returns or raises, and leaves the handle it was given in a new state
    ([self._pamh] can still be [None] when [start] failed half way).  An
    entry point reaches the dispatcher through the handle, its result and its
    exception only: it does not rebind the names of its own module, and it
    does not change the list [argv] in place (lists are values here). *)
Definition entry_fn : Type :=
  option PamHandle -> pyval -> pyval -> pyresult pyval * option PamHandle.

(** What a global name of the module is bound to: something callable, or a
    value that is not callable. *)
Inductive modattr : Type :=
| ModFunc (f : entry_fn)
| ModVal (v : pyval).

(** The module [start] loads.  [__file__] and [PAM_CONSTANTS] are [PyNone]
    when the module has no such name, as [getattr(module, name, None)] reads
    them. *)
Record pymodule : Type := {
  __file__ : pyval;
  PAM_CONSTANTS : pyval;
  names : gmap string modattr
}.

(** The names a module gives its constants by convention: they begin with
    [PAM_] or with [_PAM_]. *)
Definition constant_name (k : pyval) : bool :=
  match k with
  | PyStr s => startswith s "PAM_" || startswith s "_PAM_"
  | _ => false
  end.

(** Every key of [PAM_CONSTANTS] is such a name (or the module has no
    dictionary of constants). *)
Definition conventional_constants (consts : pyval) : Prop :=
  forall items, consts = PyDict items ->
    Forall (fun kv => constant_name kv.1 = true) items.

(** The names PAM.py reads from its own namespace or from the builtins: the
    names that [globals()[k] = v] can take away from the code. *)
Definition names_in_use : list string :=
  ["AttributeError"; "Exception"; "ImportError"; "KeyError"; "PamException";
   "PamHandle_type"; "RuntimeError"; "TypeError"; "ValueError"; "_"; "_ext";
   "_load_extension"; "_machinery"; "_util"; "callable"; "dict"; "dir";
   "error"; "getattr"; "glob"; "globals"; "hasattr"; "import_module";
   "importlib"; "int"; "isinstance"; "len"; "list"; "object"; "open"; "os";
   "setattr"; "str"; "super"; "tuple"; "type"; "__name__"; "__builtins__";
   "__build_class__"; "__import__"].

(** What [start] needs from the operating system. *)
Record filesystem : Type := {
  getcwd : string;
  path_exists : string -> bool;
  (** [open(path, 'r')] and the reading of its lines; [None] when one of
      them raises. *)
  read_text : string -> option string;
  (** [SourceFileLoader('user_module', path)] up to [exec_module]. *)
  exec_module : string -> pyresult pymodule
}.

(** [os.path.isabs] and [os.path.join] on POSIX. *)
Definition isabs (p : string) : bool := startswith p "/".

Definition path_join (a b : string) : string :=
  if isabs b then b
  else if String.eqb a "" || endswith a "/" then a +:+ b
  else a +:+ "/" +:+ b.

(** ** class pam *)

Module pam.

(** One call of a module entry point, as the dispatcher made it:
    [func(ev_handle, ev_flags, ev_argv)] for the function bound to [ev_name],
    and how that call ended. *)
Record call_event : Type := {
  ev_name : string;
  ev_handle : option PamHandle;
  ev_flags : pyval;
  ev_argv : pyval;
  ev_result : pyresult pyval
}.

(** The attributes of a [pam] object.  [_service_args] is [None] until
    [start] creates the attribute.  [call_log] is not an attribute of the
    object: it records the calls made into the module, oldest first, so that
    statements can speak about them. *)
Record t : Type := {
  _user_module : option pymodule;
  _pamh : option PamHandle;
  _service_args : option (gmap string (list string));
  call_log : list call_event
}.

(** [__init__] *)
Definition __init__ : t :=
  {| _user_module := None; _pamh := None; _service_args := None;
     call_log := [] |}.

(** *** start *)

(** [len(parts) >= 4 and parts[2].endswith('pam_python.so')] *)
Definition qualifies (parts : list string) : bool :=
  (4 <=? length parts)%nat &&
  match parts !! 2%nat with
  | Some p => endswith p "pam_python.so"
  | None => false
  end.

(** The first loop over the lines: [parts[3]] of the first line that
    qualifies. *)
Fixpoint find_script (lines : list string) : option string :=
  match lines with
  | [] => None
  | line :: rest =>
      let parts := str_split line in
      if qualifies parts then parts !! 3%nat else find_script rest
  end.

(** The body of the second loop: [self._service_args[parts[0]] = parts[3:]]. *)
Definition record_args (table : gmap string (list string)) (line : string)
  : gmap string (list string) :=
  let parts := str_split line in
  if qualifies parts then
    match parts with
    | service :: _ => <[service := drop 3 parts]> table
    | [] => table
    end
  else table.

Definition scan_args (lines : list string) : gmap string (list string) :=
  fold_left record_args lines ∅.

Definition set_user_module (m : pymodule) (st : t) : t :=
  {| _user_module := Some m; _pamh := _pamh st;
     _service_args := _service_args st; call_log := call_log st |}.

Definition set_pamh (h : option PamHandle) (st : t) : t :=
  {| _user_module := _user_module st; _pamh := h;
     _service_args := _service_args st; call_log := call_log st |}.

Definition set_service_args (table : gmap string (list string)) (st : t) : t :=
  {| _user_module := _user_module st; _pamh := _pamh st;
     _service_args := Some table; call_log := call_log st |}.

(** [cfg_path]: the file [start] reads. *)
Definition config_path (fs : filesystem) (cfg : string) : string :=
  if isabs cfg || path_exists fs cfg then cfg
  else path_join (getcwd fs) cfg.

(** [module_script] in [start]: the script of the first line that qualifies,
    or [test.py] in the working directory when the configuration cannot be
    read and that file exists. *)
Definition found_script (fs : filesystem) (cfg : string) : option string :=
  match read_text fs (config_path fs cfg) with
  | Some content => find_script (file_lines content)
  | None =>
      if path_exists fs (path_join (getcwd fs) "test.py")
      then Some (path_join (getcwd fs) "test.py") else None
  end.

(** [start(self, pam_module_filename, user, conv)].

    After the constants are on the handle, the code copies them into the
    namespace of the [PAM] module ([globals()[k] = v]).  A constant named as
    the convention has it ([conventional_constants]) binds a name that no
    line of PAM.py reads, so the block changes nothing of what follows.  A
    constant of another name can rebind what the rest of [start] and the
    other methods read ([open], [len], [getattr], [error], ...); what the
    code does then is not described here, and every statement about [start]
    past this block is made for conventional constants.

    The last block writes [service_args_debug.json]; it changes nothing of
    the object and swallows its own exceptions, and is left out. *)
Definition start (fs : filesystem) (pam_module_filename : string)
    (user conv : pyval) (st : t) : pyresult pyval * t :=
  let cfg_path := config_path fs pam_module_filename in
  let module_script :=
    match read_text fs cfg_path with
    | Some content => find_script (file_lines content)
    | None =>
        let possible := path_join (getcwd fs) "test.py" in
        if path_exists fs possible then Some possible else None
    end in
  match module_script with
  | None =>
      (Raise (Exc RuntimeError
         [PyStr ("could not find target python module in " +:+ cfg_path)]), st)
  | Some script =>
      match exec_module fs script with
      | Raise e => (Raise e, st)
      | Return user_mod =>
          let st1 := set_user_module user_mod st in
          match PamHandle_type.__init__ (PyStr script) user conv with
          | Raise e => (Raise e, st1)
          | Return h0 =>
              let '(r, h1) :=
                PamHandle_type._populate_constants (PAM_CONSTANTS user_mod) h0 in
              match r with
              | Raise e => (Raise e, set_pamh (Some h1) st1)
              | Return _ =>
                  match PamHandle_type.__setattr__ "env"
                          (PyEnv PamEnvMapping.__init__) h1 with
                  | Raise e => (Raise e, set_pamh (Some h1) st1)
                  | Return h2 =>
                      let table :=
                        match read_text fs cfg_path with
                        | Some content => scan_args (file_lines content)
                        | None => ∅
                        end in
                      (Return PyNone,
                       set_service_args table (set_pamh (Some h2) st1))
                  end
              end
          end
      end
  end.

(** *** putenv and set_item *)

(** [kv.split('=', 1)] for a [kv] with an [=] in it: what stands before the
    first [=] and what stands after it. *)
Fixpoint split_at_eq (kv : string) : string * string :=
  match kv with
  | EmptyString => (EmptyString, EmptyString)
  | String c rest =>
      if Ascii.eqb c "=" then (EmptyString, rest)
      else let '(k, v) := split_at_eq rest in (String c k, v)
  end.

(** [d[k] = v] on the items of a [dict], for a string [k]: the value of the
    key is replaced where it is, a new key goes to the end. *)
Fixpoint dict_set (k : string) (v : pyval) (items : list (pyval * pyval))
  : list (pyval * pyval) :=
  match items with
  | [] => [(PyStr k, v)]
  | (PyStr k', v') :: rest =>
      if String.eqb k' k then (PyStr k', v) :: rest
      else (PyStr k', v') :: dict_set k v rest
  | kv :: rest => kv :: dict_set k v rest
  end.

(** [obj[k] = v] for strings [k] and [v], on whatever [self._pamh.env] is
    bound to: the new state of [obj]. *)
Definition setitem_str (obj : pyval) (k v : string) : pyresult pyval :=
  match obj with
  | PyEnv d =>
      bind (PamEnvMapping.__setitem__ (PyStr k) (PyStr v) d) (fun d' =>
        Return (PyEnv d'))
  | PyDict items => Return (PyDict (dict_set k (PyStr v) items))
  | PyList _ =>
      Raise (Exc TypeError
        [PyStr "list indices must be integers or slices, not str"])
  | _ =>
      Raise (Exc TypeError
        [PyStr ("'" +:+ type_name obj +:+
                "' object does not support item assignment")])
  end.

(** [putenv(self, kv)].  The mapping is changed in place; here the handle
    gets its new state under the name [env]. *)
Definition putenv (kv : pyval) (st : t) : pyresult pyval * t :=
  match kv with
  | PyStr s =>
      if negb (contains_char "=" s) then
        (Raise (Exc ValueError [PyStr "putenv expects key=value"]), st)
      else
        let '(k, v) := split_at_eq s in
        match _pamh st with
        | None =>
            (Raise (Exc AttributeError
               [PyStr "'NoneType' object has no attribute 'env'"]), st)
        | Some h =>
            match bind (PamHandle_type.attr h "env")
                    (fun env => setitem_str env k v) with
            | Return env' =>
                (Return PyNone,
                 set_pamh (Some (<["env" := env']> h)) st)
            | Raise e => (Raise e, st)
            end
        end
  | _ => (Raise (Exc TypeError [PyStr "putenv expects a string"]), st)
  end.

(** [_item_map.get(item)] in [set_item] *)
Definition _item_map (item : pyval) : pyresult (option string) :=
  if negb (hashable item) then Raise (PamEnvMapping.unhashable item)
  else
    Return
      match int_value item with
      | Some 2 => Some "user"
      | Some 3 => Some "tty"
      | Some 4 => Some "rhost"
      | Some 8 => Some "ruser"
      | Some 9 => Some "user_prompt"
      | Some 11 => Some "xdisplay"
      | Some 13 => Some "authtok_type"
      | _ => None
      end.

(** [set_item(self, item, value)].  The text of the [AttributeError] of
    [setattr(None, ...)] is that of CPython 3.10. *)
Definition set_item (item value : pyval) (st : t) : pyresult pyval * t :=
  match _item_map item with
  | Raise e => (Raise e, st)
  | Return None => (Return PyNone, st)
  | Return (Some name) =>
      match _pamh st with
      | None =>
          (Raise (Exc AttributeError
             [PyStr ("'NoneType' object has no attribute '" +:+ name +:+ "'")]),
           st)
      | Some h =>
          match PamHandle_type.__setattr__ name value h with
          | Return h' => (Return PyNone, set_pamh (Some h') st)
          | Raise e => (Raise e, st)
          end
      end
  end.

(** *** _call_handler *)

(** [service_map.get(name)] *)
Definition service_map (name : string) : option string :=
  if String.eqb name "pam_sm_authenticate" then Some "auth"
  else if String.eqb name "pam_sm_setcred" then Some "auth"
  else if String.eqb name "pam_sm_acct_mgmt" then Some "account"
  else if String.eqb name "pam_sm_open_session" then Some "session"
  else if String.eqb name "pam_sm_close_session" then Some "session"
  else if String.eqb name "pam_sm_chauthtok" then Some "password"
  else None.

(** [getattr(self._pamh, name, default)], where [self._pamh] may be [None]. *)
Definition getattr_pamh (h : option PamHandle) (name : string) (default : pyval)
  : pyval :=
  match h with
  | Some h => PamHandle_type.getattr h name default
  | None => default
  end.

(** The argument vector the entry point receives: the one given, else the
    arguments of its service, else the path of the module in a list.  The
    list of a service is the one the table holds when the call is made; it
    is passed by value here, so a module that changes it in place is not
    followed into the calls that come after. *)
Definition resolve_argv (st : t) (m : pymodule) (name : string) (argv : pyval)
  : pyval :=
  match argv with
  | PyNone =>
      let argv1 :=
        match service_map name, _service_args st with
        | Some svc, Some table =>
            match table !! svc with
            | Some l => PyList (map PyStr l)
            | None => PyNone
            end
        | _, _ => PyNone
        end in
      match argv1 with
      | PyNone =>
          let mp := __file__ m in
          let mp :=
            match mp, _pamh st with
            | PyNone, Some h => PamHandle_type.getattr h "module_path" PyNone
            | _, _ => mp
            end in
          match mp with
          | PyNone => PyNone
          | _ => PyList [mp]
          end
      | _ => argv1
      end
  | _ => argv
  end.

(** What becomes of the value the entry point returned. *)
Definition translate_result (h : option PamHandle) (res : pyval)
  : pyresult pyval :=
  if is_int res then
    if negb (int_eq res (PyInt 0)) then
      let ignore_val := getattr_pamh h "PAM_IGNORE" (PyInt 25) in
      let perm_denied := getattr_pamh h "PAM_PERM_DENIED" (PyInt 6) in
      let code := if int_eq res ignore_val then perm_denied else res in
      Raise (error (PyStr "pam service returned error") code)
    else Return res
  else Return res.

(** The six lifecycle calls of the dispatcher. *)
Inductive entry_point : Type :=
| Authenticate | Setcred | Acct_mgmt | Open_session | Close_session
| Chauthtok.

Definition handler_name (ep : entry_point) : string :=
  match ep with
  | Authenticate => "pam_sm_authenticate"
  | Setcred => "pam_sm_setcred"
  | Acct_mgmt => "pam_sm_acct_mgmt"
  | Open_session => "pam_sm_open_session"
  | Close_session => "pam_sm_close_session"
  | Chauthtok => "pam_sm_chauthtok"
  end.

(** [evs] are successive calls of [f]: the first on the handle [h], each
    later one on the handle the call before it left, each with the flags and
    the argument vector the event records and with the result [f] gives for
    them; [h'] is the handle the last call left. *)
Fixpoint calls_of (f : entry_fn) (h : option PamHandle)
    (evs : list call_event) (h' : option PamHandle) : Prop :=
  match evs with
  | [] => h' = h
  | ev :: rest =>
      ev_handle ev = h /\
      ev_result ev = (f h (ev_flags ev) (ev_argv ev)).1 /\
      calls_of f (f h (ev_flags ev) (ev_argv ev)).2 rest h'
  end.

Section Dispatch.

(** [str(v)] and [repr(v)] belong to the interpreter; both are taken to
    return. *)
Variable py_str : pyval -> string.
Variable py_repr : pyval -> string.

(** [str(e)].  The classes of the file and the builtin classes named in
    [exc_class] keep the [__str__] of [BaseException], but for a [KeyError]
    with one argument, which shows its [repr].  A class of another name may
    bring a [__str__] of its own, as [OSError] does: what [str] makes of
    such an exception belongs to the interpreter, which sees an instance of
    the class with its [args]. *)
Definition exc_str (e : pyexc) : string :=
  match e with
  | Exc (UserException name) args | Exc (UserBaseException name) args =>
      py_str (PyInst name [("args", PyTuple args)])
  | Exc _ [] | PamException _ [] => ""
  | Exc KeyError [a] => py_repr a
  | Exc _ [a] | PamException _ [a] => py_str a
  | Exc _ args | PamException _ args => py_str (PyTuple args)
  | error msg code => py_str (PyTuple [msg; code])
  end.

(** The three [except] clauses. *)
Definition translate_exception (e : pyexc) : pyexc :=
  match e with
  | PamException _ _ => e
  | error _ _ => e
  | Exc cls _ =>
      if derives_Exception cls
      then PamException (PyInt 3) [PyStr (exc_str e)]
      else e
  end.

(** The body of the [try] after the call: what the caller sees of the
    result [r] of the entry point, [h] being the handle after the call. *)
Definition outcome (r : pyresult pyval) (h : option PamHandle)
  : pyresult pyval :=
  match r with
  | Return res =>
      match translate_result h res with
      | Return v => Return v
      | Raise e => Raise (translate_exception e)
      end
  | Raise e => Raise (translate_exception e)
  end.


Definition log_call (ev : call_event) (h : option PamHandle) (st : t) : t :=
  {| _user_module := _user_module st; _pamh := h;
     _service_args := _service_args st; call_log := call_log st ++ [ev] |}.

(** [_call_handler(self, name, flags, argv)] *)
Definition _call_handler (name : string) (flags argv : pyval) (st : t)
  : pyresult pyval * t :=
  match _user_module st with
  | None => (Raise (Exc RuntimeError [PyStr "module not started"]), st)
  | Some m =>
      match names m !! name with
      | Some (ModFunc func) =>
          let argv := resolve_argv st m name argv in
          let '(r, h) := func (_pamh st) flags argv in
          let st' :=
            log_call {| ev_name := name; ev_handle := _pamh st;
                        ev_flags := flags; ev_argv := argv; ev_result := r |}
              h st in
          (outcome r h, st')
      | _ => (Raise (error (PyStr "Symbol not found") (PyInt 2)), st)
      end
  end.

(** The entry points. *)
Definition authenticate (flags argv : pyval) (st : t) :=
  _call_handler "pam_sm_authenticate" flags argv st.

Definition setcred (flags argv : pyval) (st : t) :=
  _call_handler "pam_sm_setcred" flags argv st.

Definition acct_mgmt (flags argv : pyval) (st : t) :=
  _call_handler "pam_sm_acct_mgmt" flags argv st.

Definition open_session (flags argv : pyval) (st : t) :=
  _call_handler "pam_sm_open_session" flags argv st.

Definition close_session (flags argv : pyval) (st : t) :=
  _call_handler "pam_sm_close_session" flags argv st.

(** [chauthtok(self, flags, argv)]: [flags] is not used. *)
Definition chauthtok (flags argv : pyval) (st : t) : pyresult pyval * t :=
  let prelim := getattr_pamh (_pamh st) "PAM_PRELIM_CHECK" (PyInt 16384) in
  let update := getattr_pamh (_pamh st) "PAM_UPDATE_AUTHTOK" (PyInt 8192) in
  match _call_handler "pam_sm_chauthtok" prelim argv st with
  | (Raise e, st1) => (Raise e, st1)
  | (Return _, st1) => _call_handler "pam_sm_chauthtok" update argv st1
  end.

Definition invoke (ep : entry_point) (flags argv : pyval) (st : t)
  : pyresult pyval * t :=
  match ep with
  | Authenticate => authenticate flags argv st
  | Setcred => setcred flags argv st
  | Acct_mgmt => acct_mgmt flags argv st
  | Open_session => open_session flags argv st
  | Close_session => close_session flags argv st
  | Chauthtok => chauthtok flags argv st
  end.

End Dispatch.

End pam.


(** ** Concrete objects for the examples *)

Module Examples.

(** A stand-in for [str]: the examples apply it to strings only. *)
Definition example_str (v : pyval) : string :=
  match v with
  | PyStr s => s
  | PyNone => "None"
  | PyBool true => "True"
  | PyBool false => "False"
  | _ => "<object>"
  end.

(** The handle [PamHandle_type('/opt/mod.py', 'alice', conv)] ... *)
Definition new_handle : PamHandle :=
  match PamHandle_type.__init__ (PyStr "/opt/mod.py") (PyStr "alice")
          (PyCallable 0) with
  | Return h => h
  | Raise _ => ∅
  end.

(** ... and the same after [_populate_constants] on a module that declares
    no constants. *)
Definition sealed_handle : PamHandle :=
  (PamHandle_type._populate_constants PyNone new_handle).2.

(** A table of constants as a module declares it, and the handle after
    [_populate_constants] has written it. *)
Definition example_constants : list (pyval * pyval) :=
  [(PyStr "PAM_SUCCESS", PyInt 0); (PyStr "PAM_PERM_DENIED", PyInt 6);
   (PyStr "PAM_IGNORE", PyInt 25); (PyStr "_PAM_RETURN_VALUES", PyInt 32)].

Definition populated_handle : PamHandle :=
  (PamHandle_type._populate_constants (PyDict example_constants) new_handle).2.

(** Two prompts, as a module passes them to [conversation]. *)
Definition two_prompts : pyval :=
  PyList [PyInst "Message" [("msg", PyStr "login: "); ("msg_style", PyInt 2)];
          PyInst "Message" [("msg", PyStr "password: "); ("msg_style", PyInt 1)]].

(** A conversation function that answers with one string whatever it is
    asked, and one that answers each of two prompts. *)
Definition conv_one_reply (f : pyval) (args : list PamHandle_type.pyarg)
  : pyresult pyval :=
  Return (PyStr "ok").

Definition conv_two_replies (f : pyval) (args : list PamHandle_type.pyarg)
  : pyresult pyval :=
  Return (PyList [PyTuple [PyStr "alice"; PyInt 0];
                  PyTuple [PyStr "secret"; PyInt 0]]).

(** An entry point that leaves the handle as it is and always ends the same
    way. *)
Definition constant_fn (r : pyresult pyval) : entry_fn :=
  fun h _ _ => (r, h).

(** A module at [/opt/mod.py] that binds the six entry points to [f] and
    declares no constants. *)
Definition module_with (f : entry_fn) : pymodule :=
  {| __file__ := PyStr "/opt/mod.py";
     PAM_CONSTANTS := PyNone;
     names :=
       list_to_map
         (map (fun n => (n, ModFunc f))
            ["pam_sm_authenticate"; "pam_sm_setcred"; "pam_sm_acct_mgmt";
             "pam_sm_open_session"; "pam_sm_close_session";
             "pam_sm_chauthtok"]) |}.

(** A module that defines no entry point, but binds one of the names to a
    number. *)
Definition module_without_entry_points : pymodule :=
  {| __file__ := PyStr "/opt/mod.py";
     PAM_CONSTANTS := PyNone;
     names := {[ "pam_sm_setcred" := ModVal (PyInt 1) ]} |}.

(** The line of the end-to-end scenario, and a file system in which
    [/etc/pam.d/login] holds that line and [/opt/mod.py] is the module [m]. *)
Definition scenario_line : string :=
  "login auth /lib/pam_python.so /opt/mod.py arg1 arg2".

Definition scenario_fs (m : pymodule) : filesystem :=
  {| getcwd := "/home/alice";
     path_exists := fun p => String.eqb p "/etc/pam.d/login";
     read_text := fun p =>
       if String.eqb p "/etc/pam.d/login"
       then Some (scenario_line +:+ String "010" EmptyString)
       else None;
     exec_module := fun p =>
       if String.eqb p "/opt/mod.py" then Return m
       else Raise (Exc (UserException "FileNotFoundError") [PyStr p]) |}.

(** The dispatcher after [start('/etc/pam.d/login', 'alice', conv)]. *)
Definition started (m : pymodule) : pam.t :=
  (pam.start (scenario_fs m) "/etc/pam.d/login" (PyStr "alice") (PyCallable 0)
     pam.__init__).2.

(** For [strerror]: no opaque callable is bound in the examples. *)
Definition no_callable (c : pyval) (args : list pyval) : pyexc :=
  Exc TypeError [PyStr "not reached"].

End Examples.

(** ** The transaction handle: constants, seal and value classes *)

Section HandleFacts.

Import PamHandle_type.

(** Case analysis on the next comparison of a name with a literal. *)
Ltac case_name_eqb :=
  match goal with
  | |- context [String.eqb ?n ?s] =>
      destruct (String.eqb_spec n s) as [->|_]
  | H : context [String.eqb ?n ?s] |- _ =>
      destruct (String.eqb_spec n s) as [->|_]
  end.

Lemma startswith_PAM_no_underscore (name : string) :
  startswith name "PAM_" = true -> startswith name "_" = false.
Proof.
  destruct name as [|c rest]; cbn [startswith]; [done|].
  destruct (Ascii.eqb_spec "P" c) as [<-|]; [reflexivity|].
  intros H; simpl in H; discriminate.
Qed.

Lemma startswith__PAM_underscore (name : string) :
  startswith name "_PAM_" = true -> startswith name "_" = true.
Proof.
  destruct name as [|c rest]; cbn [startswith]; [done|].
  destruct (Ascii.eqb_spec "_" c) as [<-|]; [reflexivity|].
  intros H; simpl in H; discriminate.
Qed.

Lemma PAM_name_is_no_item (name : string) :
  startswith name "PAM_" = true -> _item_const name = None.
Proof.
  intros H. unfold _item_const.
  repeat case_name_eqb; try reflexivity; vm_compute in H; discriminate.
Qed.

Lemma getattr_insert_eq (h : PamHandle) (name : string) (v d : pyval) :
  getattr (<[name := v]> h) name d = v.
Proof. unfold getattr, attr. by rewrite lookup_insert_eq. Qed.

(** The three names the interpreter keeps begin with two underscores, so a
    name without an underscore in front, a constant and an item name are
    none of them. *)
Lemma no_underscore_no_slot (name : string) :
  startswith name "_" = false -> slot_name name = false.
Proof.
  intros H. unfold slot_name.
  repeat case_name_eqb; try reflexivity; vm_compute in H; discriminate.
Qed.

Lemma _PAM_name_is_no_slot (name : string) :
  startswith name "_PAM_" = true -> slot_name name = false.
Proof.
  intros H. unfold slot_name.
  repeat case_name_eqb; try reflexivity; vm_compute in H; discriminate.
Qed.

Lemma constant_name_no_slot (k : string) :
  constant_name (PyStr k) = true -> slot_name k = false.
Proof.
  cbn [constant_name]. intros [H|H]%orb_true_iff.
  - by apply no_underscore_no_slot, startswith_PAM_no_underscore.
  - by apply _PAM_name_is_no_slot.
Qed.

Lemma constant_name_string (k : pyval) :
  constant_name k = true -> exists s, k = PyStr s.
Proof. destruct k; try discriminate. by eexists. Qed.

(** Off the three names, [object.__setattr__] is a write to the
    dictionary. *)
Lemma object_setattr_plain (h : PamHandle) (name : string) (v : pyval) :
  slot_name name = false ->
  object_setattr name v h = Return (<[name := v]> h).
Proof.
  unfold slot_name, object_setattr. intros H.
  apply orb_false_iff in H as [H Hw]. apply orb_false_iff in H as [Hc Hd].
  by rewrite Hw, Hd, Hc.
Qed.

Lemma setattr_underscore (h : PamHandle) (name : string) (v : pyval) :
  startswith name "_" = true -> slot_name name = false ->
  __setattr__ name v h = Return (<[name := v]> h).
Proof.
  intros H Hs. unfold __setattr__. rewrite H. by apply object_setattr_plain.
Qed.

Lemma setattr_sealed_PAM (h : PamHandle) (name : string) (v : pyval) :
  sealed h -> startswith name "PAM_" = true ->
  __setattr__ name v h =
    Raise (Exc AttributeError
      [PyStr ("attribute '" +:+ name +:+
              "' of 'PamHandle_type' objects is not writable")]).
Proof.
  intros Hs Hp. unfold __setattr__.
  rewrite (startswith_PAM_no_underscore _ Hp).
  unfold sealed in Hs. by rewrite Hs, Hp.
Qed.

Lemma setattr_unsealed_PAM (h : PamHandle) (name : string) (v : pyval) :
  truthy (getattr h "_constants_locked" (PyBool false)) = false ->
  startswith name "PAM_" = true ->
  __setattr__ name v h = Return (<[name := v]> h).
Proof.
  intros Hs Hp. unfold __setattr__.
  rewrite (startswith_PAM_no_underscore _ Hp), Hs. simpl.
  rewrite (PAM_name_is_no_item _ Hp).
  by apply object_setattr_plain, no_underscore_no_slot,
    startswith_PAM_no_underscore.
Qed.

Lemma setattr_other (h : PamHandle) (name : string) (v : pyval) :
  slot_name name = false ->
  startswith name "PAM_" = false ->
  _item_const name = None \/ is_str v = true ->
  __setattr__ name v h = Return (<[name := v]> h).
Proof.
  intros Hslot Hp Hv. unfold __setattr__.
  rewrite (object_setattr_plain _ _ _ Hslot).
  destruct (startswith name "_") eqn:Hu; [done|].
  rewrite Hp, orb_false_l.
  destruct (startswith name "_PAM_") eqn:Hq.
  { apply startswith__PAM_underscore in Hq. congruence. }
  rewrite andb_false_r.
  destruct (_item_const name) eqn:Hi; [|done].
  destruct Hv as [Hv|Hv]; [done|by rewrite Hv].
Qed.

Lemma setattr_item_type_error (h : PamHandle) (name const : string) (v : pyval) :
  _item_const name = Some const -> is_str v = false ->
  __setattr__ name v h =
    Raise (Exc TypeError
      [PyStr ("PAM item " +:+ const +:+ " must be set to a string")]).
Proof.
  intros Hi Hv. unfold __setattr__.
  assert (startswith name "_" = false /\ startswith name "PAM_" = false
          /\ startswith name "_PAM_" = false) as (-> & -> & ->).
  { unfold _item_const in Hi.
    repeat case_name_eqb; try discriminate; by vm_compute. }
  rewrite andb_false_r, Hi, Hv. done.
Qed.

Lemma item_name_no_slot (name const : string) :
  _item_const name = Some const -> slot_name name = false.
Proof.
  intros Hi. apply no_underscore_no_slot. unfold _item_const in Hi.
  repeat case_name_eqb; try discriminate; by vm_compute.
Qed.

(** The loop of [_populate_constants] on constants named by the
    convention. *)
Lemma write_constants_ok (items : list (pyval * pyval)) (h : PamHandle) :
  Forall (fun kv => constant_name kv.1 = true) items ->
  (write_constants items h).1 = Return tt.
Proof.
  intros H. revert h.
  induction H as [|[k v] rest Hk _ IH]; intros h; cbn [write_constants];
    [done|].
  cbn [fst] in Hk. destruct (constant_name_string _ Hk) as [s ->].
  rewrite object_setattr_plain by by apply constant_name_no_slot.
  apply IH.
Qed.

Lemma write_constants_other (items : list (pyval * pyval)) (h : PamHandle)
    (k : string) :
  Forall (fun kv => constant_name kv.1 = true) items ->
  PyStr k ∉ items.*1 ->
  (write_constants items h).2 !! k = h !! k.
Proof.
  intros H. revert h.
  induction H as [|[k' v'] rest Hk' _ IH]; intros h Hk;
    cbn [write_constants]; [done|].
  rewrite fmap_cons, not_elem_of_cons in Hk. destruct Hk as [Hne Hk].
  cbn [fst] in Hk', Hne. destruct (constant_name_string _ Hk') as [s ->].
  rewrite object_setattr_plain by by apply constant_name_no_slot.
  rewrite IH by done.
  apply lookup_insert_ne. congruence.
Qed.

Lemma write_constants_lookup (items : list (pyval * pyval)) (h : PamHandle)
    (k : string) (v : pyval) :
  Forall (fun kv => constant_name kv.1 = true) items ->
  NoDup items.*1 -> (PyStr k, v) ∈ items ->
  (write_constants items h).2 !! k = Some v.
Proof.
  intros Hs. revert h.
  induction Hs as [|[k' v'] rest Hk' Hrest IH]; intros h Hnd Hin;
    cbn [write_constants].
  { by apply elem_of_nil in Hin. }
  rewrite fmap_cons in Hnd. apply NoDup_cons in Hnd as [Hfresh Hnd].
  cbn [fst] in Hk', Hfresh. destruct (constant_name_string _ Hk') as [s ->].
  rewrite object_setattr_plain by by apply constant_name_no_slot.
  apply elem_of_cons in Hin as [Heq|Hin].
  - injection Heq as <- <-.
    rewrite write_constants_other by done.
    apply lookup_insert_eq.
  - by apply IH.
Qed.

Lemma populate_seals (consts : pyval) (h0 h : PamHandle) :
  _populate_constants consts h0 = (Return tt, h) -> sealed h.
Proof.
  unfold _populate_constants, sealed.
  destruct (match consts with PyDict items => _ | _ => _ end) as [[[]|e] h1];
    [|discriminate].
  rewrite object_setattr_plain by done.
  intros [= <-]. by rewrite getattr_insert_eq.
Qed.

Lemma populate_returns (consts : pyval) (h0 : PamHandle) :
  conventional_constants consts ->
  exists h, _populate_constants consts h0 = (Return tt, h) /\ sealed h.
Proof.
  intros Hkeys.
  destruct (_populate_constants consts h0) as [r h] eqn:Hpop.
  assert (r = Return tt) as ->.
  { unfold _populate_constants in Hpop.
    rewrite !object_setattr_plain in Hpop by done.
    destruct consts; try (by injection Hpop as <- _).
    pose proof (write_constants_ok items h0 (Hkeys _ eq_refl)) as Hw.
    destruct (write_constants items h0) as [r1 h1]. simpl in Hw. subst r1.
    by injection Hpop as <- _. }
  exists h. split; [done|]. by eapply populate_seals.
Qed.

Lemma init_returns (module_path user conv : pyval) :
  is_str user = true ->
  __init__ module_path user conv =
    Return (<["_constants_locked" := PyBool false]>
            (<["exception" := PyClass "PamException"]>
             (<["conv" := conv]>
              (<["user" := user]>
               (<["module_path" := module_path]>
                (<["module" := PyNone]> ∅)))))).
Proof.
  intros Hu. unfold __init__.
  rewrite (setattr_other _ "module") by (done || by left). cbn [bind].
  rewrite (setattr_other _ "module_path") by (done || by left). cbn [bind].
  rewrite (setattr_other _ "user") by (done || by right). cbn [bind].
  rewrite (setattr_other _ "conv") by (done || by left). cbn [bind].
  rewrite (setattr_other _ "exception") by (done || by left). cbn [bind].
  by rewrite setattr_underscore.
Qed.

(** C9, amended: an attribute whose name begins with an underscore and is
    none of [__class__], [__dict__] and [__weakref__] is always set,
    whatever the value and whether or not the handle is sealed, and so is a
    name that begins with [_PAM_]; for a name that is none of the three,
    [__setattr__] raises an [AttributeError] exactly when the handle is
    sealed and the name begins with [PAM_]. *)
Theorem underscore_names_bypass_seal (h : PamHandle) (name : string) (v : pyval) :
  slot_name name = false ->
  (startswith name "_" = true ->
     __setattr__ name v h = Return (<[name := v]> h)) /\
  (startswith name "_PAM_" = true ->
     __setattr__ name v h = Return (<[name := v]> h)) /\
  ((exists args, __setattr__ name v h = Raise (Exc AttributeError args)) <->
     sealed h /\ startswith name "PAM_" = true).
Proof.
  intros Hslot.
  split; [intros; by apply setattr_underscore|].
  split.
  { intros H. apply setattr_underscore; [|done].
    by apply startswith__PAM_underscore. }
  split.
  - intros [args H]. unfold __setattr__ in H.
    rewrite (object_setattr_plain _ _ _ Hslot) in H.
    destruct (startswith name "_") eqn:Hu; [discriminate|].
    destruct (truthy _) eqn:Hs; cbn [andb] in H.
    + destruct (startswith name "PAM_") eqn:Hp; [done|].
      destruct (startswith name "_PAM_") eqn:Hq.
      * apply startswith__PAM_underscore in Hq. congruence.
      * cbn [orb] in H. destruct (_item_const name); [|discriminate].
        destruct (is_str v); discriminate.
    + destruct (_item_const name); [|discriminate].
      destruct (is_str v); discriminate.
  - intros [Hs Hp]. eexists. by apply setattr_sealed_PAM.
Qed.

Lemma underscore_names_bypass_seal_witness :
  sealed Examples.sealed_handle /\
  slot_name "_PAM_RETURN_VALUES" = false /\
  startswith "_PAM_RETURN_VALUES" "_" = true /\
  __setattr__ "_PAM_RETURN_VALUES" (PyInt 99) Examples.sealed_handle =
    Return (<["_PAM_RETURN_VALUES" := PyInt 99]> Examples.sealed_handle).
Proof.
  split; [reflexivity|]. split; [reflexivity|]. split; [reflexivity|].
  apply (underscore_names_bypass_seal Examples.sealed_handle
           "_PAM_RETURN_VALUES" (PyInt 99)); reflexivity.
Defined.

(** C9, as the specification states it, fails: [__weakref__] and
    [__class__] begin with an underscore, and on a handle that is not sealed
    the assignment of 5 to them raises, an [AttributeError] for the first
    and a [TypeError] for the second; a dictionary assigned to [__dict__] is
    accepted and takes every other attribute of the handle away. *)
Lemma interpreter_names_are_not_plain_attributes :
  startswith "__weakref__" "_" = true /\
  startswith "__weakref__" "PAM_" = false /\
  ~ sealed Examples.new_handle /\
  __setattr__ "__weakref__" (PyInt 5) Examples.new_handle =
    Raise (Exc AttributeError
      [PyStr "attribute '__weakref__' of 'PamHandle_type' objects is not writable"]) /\
  __setattr__ "__class__" (PyInt 5) Examples.new_handle =
    Raise (Exc TypeError
      [PyStr "__class__ must be set to a class, not 'int' object"]) /\
  __setattr__ "__dict__" (PyDict []) Examples.new_handle = Return ∅.
Proof.
  split; [reflexivity|]. split; [reflexivity|].
  split; [by vm_compute|]. repeat split; reflexivity.
Qed.

(** C5: the code does not keep what the claim states for the constants whose
    name begins with [_PAM_].  After [_populate_constants] has returned the
    handle is sealed, and every assignment to a name that begins with [PAM_]
    raises the read-only [AttributeError]; but an assignment to a name that
    begins with [_PAM_], which [__setattr__] tests for in the same
    condition, is stored and read back: the test is not reached, because
    [__setattr__] has returned before it for every name that begins with an
    underscore. *)
Theorem sealed_handle_stores_private_constant (consts : pyval)
    (h0 h : PamHandle) (name : string) (v : pyval) :
  _populate_constants consts h0 = (Return tt, h) ->
  startswith name "_PAM_" = true ->
  sealed h /\
  (forall public w, startswith public "PAM_" = true ->
     __setattr__ public w h =
       Raise (Exc AttributeError
         [PyStr ("attribute '" +:+ public +:+
                 "' of 'PamHandle_type' objects is not writable")])) /\
  __setattr__ name v h = Return (<[name := v]> h) /\
  attr (<[name := v]> h) name = Return v.
Proof.
  intros Hpop Hname.
  pose proof (populate_seals _ _ _ Hpop) as Hs.
  split; [done|].
  split; [intros; by apply setattr_sealed_PAM|].
  split.
  - apply setattr_underscore.
    + by apply startswith__PAM_underscore.
    + by apply _PAM_name_is_no_slot.
  - unfold attr. by rewrite lookup_insert_eq.
Qed.

Lemma sealed_handle_stores_private_constant_witness :
  _populate_constants (PyDict Examples.example_constants) Examples.new_handle
    = (Return tt, Examples.populated_handle) /\
  startswith "_PAM_RETURN_VALUES" "_PAM_" = true /\
  Examples.populated_handle !! "_PAM_RETURN_VALUES" = Some (PyInt 32) /\
  __setattr__ "PAM_IGNORE" (PyInt 0) Examples.populated_handle =
    Raise (Exc AttributeError
      [PyStr "attribute 'PAM_IGNORE' of 'PamHandle_type' objects is not writable"]) /\
  __setattr__ "_PAM_RETURN_VALUES" (PyInt 99) Examples.populated_handle =
    Return (<["_PAM_RETURN_VALUES" := PyInt 99]> Examples.populated_handle).
Proof.
  assert (_populate_constants (PyDict Examples.example_constants)
            Examples.new_handle = (Return tt, Examples.populated_handle))
    as Hpop by reflexivity.
  split; [exact Hpop|]. split; [reflexivity|]. split; [reflexivity|].
  destruct (sealed_handle_stores_private_constant _ _ _ "_PAM_RETURN_VALUES"
              (PyInt 99) Hpop eq_refl) as (_ & Hro & Hset & _).
  split; [by apply (Hro "PAM_IGNORE")|exact Hset].
Defined.

(** C10: [Response] accepts every pair of arguments and stores them as they
    are.  [Message] raises a [TypeError] when its first argument is not an
    [int] or its second is not a [str], and builds the message otherwise. *)
Theorem response_unchecked_message_checked (a b : pyval) :
  construct "Response" a b =
    Return (PyInst "Response" [("resp", a); ("resp_retcode", b)]) /\
  (is_int a = false \/ is_str b = false ->
     exists text, construct "Message" a b = Raise (Exc TypeError [PyStr text])) /\
  (is_int a = true -> is_str b = true ->
     construct "Message" a b =
       Return (PyInst "Message" [("msg", b); ("msg_style", a)])).
Proof.
  split; [reflexivity|]. split.
  - intros H. unfold construct; simpl. unfold Message.
    destruct (is_int a); simpl; [|by eexists].
    destruct H as [H|H]; [discriminate|].
    rewrite H. by eexists.
  - intros Ha Hb. unfold construct; simpl. unfold Message.
    by rewrite Ha, Hb.
Qed.

Lemma response_unchecked_message_checked_witness :
  (is_int (PyStr "x") = false \/ is_str PyNone = false) /\
  construct "Response" (PyStr "x") PyNone =
    Return (PyInst "Response" [("resp", PyStr "x"); ("resp_retcode", PyNone)]) /\
  exists text,
    construct "Message" (PyStr "x") PyNone = Raise (Exc TypeError [PyStr text]).
Proof.
  split; [by left|].
  destruct (response_unchecked_message_checked (PyStr "x") PyNone)
    as (Hr & Hm & _).
  split; [exact Hr|]. apply Hm. by left.
Defined.

End HandleFacts.

(** ** The environment mapping *)

Section EnvFacts.

Import PamEnvMapping.

(** C7: for a key that is a non-empty string without [=] and a value that is
    a string, [__setitem__] succeeds and [__getitem__] then returns the
    value; [__delitem__] then succeeds and [__getitem__] raises a
    [KeyError]. *)
Theorem env_set_get_delete (d : gmap string string) (k v : string) :
  k <> "" -> contains_char "=" k = false ->
  exists d1 d2,
    __setitem__ (PyStr k) (PyStr v) d = Return d1 /\
    __getitem__ (PyStr k) d1 = Return (PyStr v) /\
    __delitem__ (PyStr k) d1 = Return d2 /\
    __getitem__ (PyStr k) d2 = Raise (Exc KeyError [PyStr k]).
Proof.
  intros Hk Heq.
  assert (check_key (PyStr k) = Return k) as Hck.
  { unfold check_key. destruct (String.eqb_spec k ""); [done|]. by rewrite Heq. }
  exists (<[k := v]> d), (delete k (<[k := v]> d)).
  unfold __setitem__, __getitem__, __delitem__, __contains__.
  rewrite Hck. simpl.
  rewrite lookup_insert_eq, lookup_delete_eq.
  rewrite bool_decide_eq_true_2 by eauto.
  done.
Qed.

Lemma env_set_get_delete_witness :
  "HOME" <> "" /\ contains_char "=" "HOME" = false /\
  exists d1 d2,
    __setitem__ (PyStr "HOME") (PyStr "/root") ∅ = Return d1 /\
    __getitem__ (PyStr "HOME") d1 = Return (PyStr "/root") /\
    __delitem__ (PyStr "HOME") d1 = Return d2 /\
    __getitem__ (PyStr "HOME") d2 = Raise (Exc KeyError [PyStr "HOME"]).
Proof.
  split; [discriminate|]. split; [reflexivity|].
  apply (env_set_get_delete ∅ "HOME" "/root"); [discriminate|reflexivity].
Defined.

End EnvFacts.

(** ** The conversation *)

Section ConversationFacts.

Import PamHandle_type.

Variable py_str : pyval -> string.
Variable call : pyval -> list pyarg -> pyresult pyval.

Lemma to_response_is_Resp (m : pyval) :
  exists a b, to_response py_str m = Resp a b.
Proof.
  unfold to_response. destruct (val_attr m "msg"); [by eauto|].
  destruct m as [| | | |[|a [|b l]]|[|a [|b l]]| | | | |]; by eauto.
Qed.

Lemma Resp_is_no_sequence (a b : pyval) : is_sequence (Resp a b) = false.
Proof. reflexivity. Qed.

(** C6, amended: when the conversation function returns [res], a payload that
    is not a list or tuple gets a single object back, never a sequence:
    [None] when [res] is an empty sequence, else the response made from the
    first reply.  A payload that is a list or tuple gets a tuple with one
    response for each reply in [res], in the order of the replies; the tuple
    has the length of the payload when the function returned that many
    replies. *)
Theorem conversation_shape (h : PamHandle) (convs res : pyval) :
  call_conv call h convs = Return res ->
  (is_sequence convs = false ->
     exists r, conversation py_str call h convs = Return r /\
       is_sequence r = false /\
       (replies res = [] -> r = PyNone) /\
       (forall m rest, replies res = m :: rest ->
          r = to_response py_str m /\ exists a b, r = Resp a b)) /\
  (is_sequence convs = true ->
     exists rs, conversation py_str call h convs = Return (PyTuple rs) /\
       length rs = length (replies res) /\
       (forall (i : nat) m, replies res !! i = Some m ->
          rs !! i = Some (to_response py_str m)) /\
       (forall items, convs = PyList items \/ convs = PyTuple items ->
          length (replies res) = length items -> length rs = length items)).
Proof.
  intros Hcall. unfold conversation. rewrite Hcall. simpl. split.
  - intros ->. simpl. destruct (replies res) as [|m rest] eqn:Hr; simpl.
    + exists PyNone. do 3 (split; [done|]). intros ? ? ?; discriminate.
    + exists (to_response py_str m).
      destruct (to_response_is_Resp m) as (a & b & Hm).
      split; [done|]. split; [by rewrite Hm|]. split; [discriminate|].
      intros m' rest' [= <- <-]. eauto.
  - intros ->. simpl. eexists. split; [done|].
    split; [apply length_map|]. split.
    + intros i m Hi. by rewrite list_lookup_fmap, Hi.
    + intros items _ <-. apply length_map.
Qed.

End ConversationFacts.

(** C6, as the specification states it, fails: a conversation function that
    answers two prompts with a single string makes [conversation] return a
    tuple of one response. *)
Lemma conversation_two_prompts_one_reply :
  PamHandle_type.conversation Examples.example_str Examples.conv_one_reply
    Examples.new_handle Examples.two_prompts
  = Return (PyTuple [PamHandle_type.Resp (PyStr "ok") (PyInt 0)]) /\
  ~ (exists rs,
       PamHandle_type.conversation Examples.example_str Examples.conv_one_reply
         Examples.new_handle Examples.two_prompts = Return (PyTuple rs) /\
       length rs = 2%nat).
Proof.
  assert (PamHandle_type.conversation Examples.example_str
            Examples.conv_one_reply Examples.new_handle Examples.two_prompts
          = Return (PyTuple [PamHandle_type.Resp (PyStr "ok") (PyInt 0)])) as H.
  { vm_compute. reflexivity. }
  split; [exact H|].
  intros (rs & Hrs & Hlen). rewrite H in Hrs.
  injection Hrs as <-. discriminate.
Qed.

Lemma conversation_shape_witness :
  PamHandle_type.call_conv Examples.conv_two_replies Examples.new_handle
    Examples.two_prompts
  = Return (PyList [PyTuple [PyStr "alice"; PyInt 0];
                    PyTuple [PyStr "secret"; PyInt 0]]) /\
  is_sequence Examples.two_prompts = true /\
  exists rs,
    PamHandle_type.conversation Examples.example_str Examples.conv_two_replies
      Examples.new_handle Examples.two_prompts = Return (PyTuple rs) /\
    length rs = 2%nat.
Proof.
  assert (PamHandle_type.call_conv Examples.conv_two_replies
            Examples.new_handle Examples.two_prompts
          = Return (PyList [PyTuple [PyStr "alice"; PyInt 0];
                            PyTuple [PyStr "secret"; PyInt 0]])) as Hc.
  { vm_compute. reflexivity. }
  split; [exact Hc|]. split; [reflexivity|].
  destruct (conversation_shape Examples.example_str Examples.conv_two_replies
              Examples.new_handle Examples.two_prompts _ Hc) as [_ Hseq].
  destruct (Hseq eq_refl) as (rs & Hrs & Hlen & _).
  exists rs. split; [exact Hrs|]. exact Hlen.
Defined.

(** ** The dispatcher *)

Section DispatchFacts.

Import pam.

Variable py_str : pyval -> string.
Variable py_repr : pyval -> string.

Abbreviation _call_handler := (_call_handler py_str py_repr).
Abbreviation outcome := (outcome py_str py_repr).
Abbreviation invoke := (invoke py_str py_repr).
Abbreviation chauthtok := (chauthtok py_str py_repr).

(** The two ways through [_call_handler] once a module is loaded. *)
Lemma call_handler_missing (name : string) (flags argv : pyval) (st : t)
    (m : pymodule) :
  _user_module st = Some m ->
  (names m !! name = None \/ exists v, names m !! name = Some (ModVal v)) ->
  _call_handler name flags argv st
    = (Raise (error (PyStr "Symbol not found") (PyInt 2)), st).
Proof.
  intros Hm H. unfold pam._call_handler. rewrite Hm.
  destruct H as [->|[v ->]]; reflexivity.
Qed.

Lemma call_handler_calls (name : string) (flags argv : pyval) (st : t)
    (m : pymodule) (f : entry_fn) :
  _user_module st = Some m ->
  names m !! name = Some (ModFunc f) ->
  _call_handler name flags argv st =
    (outcome (f (_pamh st) flags (resolve_argv st m name argv)).1
             (f (_pamh st) flags (resolve_argv st m name argv)).2,
     log_call {| ev_name := name; ev_handle := _pamh st; ev_flags := flags;
                 ev_argv := resolve_argv st m name argv;
                 ev_result :=
                   (f (_pamh st) flags (resolve_argv st m name argv)).1 |}
       (f (_pamh st) flags (resolve_argv st m name argv)).2 st).
Proof.
  intros Hm Hf. unfold pam._call_handler. rewrite Hm, Hf.
  by destruct (f _ _ _).
Qed.


Lemma outcome_int (r : pyval) (h : option PamHandle) :
  is_int r = true ->
  outcome (Return r) h =
    if int_eq r (PyInt 0) then Return r
    else Raise (error (PyStr "pam service returned error")
                  (if int_eq r (getattr_pamh h "PAM_IGNORE" (PyInt 25))
                   then getattr_pamh h "PAM_PERM_DENIED" (PyInt 6)
                   else r)).
Proof.
  intros Hr. unfold pam.outcome, translate_result. rewrite Hr.
  by destruct (int_eq r (PyInt 0)).
Qed.




(** Every entry point but [chauthtok] is one call of [_call_handler]. *)
Lemma invoke_single (ep : entry_point) (flags argv : pyval) (st : t) :
  ep <> Chauthtok ->
  invoke ep flags argv st = _call_handler (handler_name ep) flags argv st.
Proof. by destruct ep. Qed.

Lemma chauthtok_unfold (flags argv : pyval) (st : t) :
  chauthtok flags argv st =
    let first :=
      _call_handler "pam_sm_chauthtok"
        (getattr_pamh (_pamh st) "PAM_PRELIM_CHECK" (PyInt 16384)) argv st in
    match first.1 with
    | Raise e => (Raise e, first.2)
    | Return _ =>
        _call_handler "pam_sm_chauthtok"
          (getattr_pamh (_pamh st) "PAM_UPDATE_AUTHTOK" (PyInt 8192)) argv
          first.2
    end.
Proof.
  unfold pam.chauthtok. cbv zeta.
  by destruct (_call_handler _ _ _ _) as [[v|e] st1].
Qed.

(** C8: once a module is loaded, an entry point whose name the module does
    not bind, or binds to something that is not callable, fails with
    [error('Symbol not found', 2)], for each of the six calls, and nothing
    else happens. *)
Theorem missing_entry_point_symbol_not_found (ep : entry_point)
    (flags argv : pyval) (st : t) (m : pymodule) :
  _user_module st = Some m ->
  (names m !! handler_name ep = None \/
   exists v, names m !! handler_name ep = Some (ModVal v)) ->
  invoke ep flags argv st
    = (Raise (error (PyStr "Symbol not found") (PyInt 2)), st).
Proof.
  intros Hm H.
  destruct ep; try (by apply (call_handler_missing _ _ _ _ m)).
  cbn [pam.invoke]. rewrite chauthtok_unfold. cbv zeta.
  by rewrite (call_handler_missing _ _ _ _ _ Hm H).
Qed.

(** With the function [f] of an entry point bound, a call of the dispatcher
    makes one call of [f], [chauthtok] one or two; the first is made on the
    handle of the dispatcher with the resolved argument vector, each call
    has the name of the entry point, and the dispatcher ends as the last of
    them ended, translated, with the handle that call left. *)
Lemma invoke_calls (ep : entry_point) (flags argv : pyval) (st : t)
    (m : pymodule) (f : entry_fn) :
  _user_module st = Some m ->
  names m !! handler_name ep = Some (ModFunc f) ->
  exists evs ev,
    call_log (invoke ep flags argv st).2 = call_log st ++ evs ++ [ev] /\
    calls_of f (_pamh st) (evs ++ [ev]) (_pamh (invoke ep flags argv st).2) /\
    ev_result ev = (f (ev_handle ev) (ev_flags ev) (ev_argv ev)).1 /\
    _pamh (invoke ep flags argv st).2
      = (f (ev_handle ev) (ev_flags ev) (ev_argv ev)).2 /\
    (invoke ep flags argv st).1 =
      outcome (ev_result ev) (_pamh (invoke ep flags argv st).2) /\
    (length evs <= 1)%nat /\
    (ep <> Chauthtok -> evs = [] /\ ev_flags ev = flags) /\
    Forall (fun e =>
      ev_name e = handler_name ep /\
      match ep with
      | Chauthtok =>
          ev_flags e
            = getattr_pamh (_pamh st) "PAM_PRELIM_CHECK" (PyInt 16384) \/
          ev_flags e
            = getattr_pamh (_pamh st) "PAM_UPDATE_AUTHTOK" (PyInt 8192)
      | _ => ev_flags e = flags
      end) (evs ++ [ev]) /\
    exists first rest,
      evs ++ [ev] = first :: rest /\
      ev_argv first = resolve_argv st m (handler_name ep) argv.
Proof.
  intros Hm Hf.
  destruct ep;
    try (rewrite invoke_single, (call_handler_calls _ _ _ _ _ _ Hm Hf)
           by done;
         eexists [], _; cbn;
         repeat split; try done; try lia;
         [by repeat constructor|by eexists _, []]).
  cbn [pam.invoke handler_name] in *. rewrite chauthtok_unfold. cbv zeta.
  rewrite (call_handler_calls _ _ _ _ _ _ Hm Hf). cbn [fst snd].
  destruct (pam.outcome _ _ _ _) as [v|e] eqn:Hout.
  - rewrite (call_handler_calls _ _ _ _ m f) by done.
    eexists [_], _. cbn [fst snd log_call call_log _pamh app length calls_of
                         ev_handle ev_flags ev_argv ev_result].
    split; [by rewrite <- app_assoc|].
    split; [done|]. split; [done|]. split; [done|]. split; [done|].
    split; [lia|]. split; [done|]. split.
    + apply Forall_cons. split; [split; [done|by left]|].
      apply Forall_cons. split; [split; [done|by right]|by apply Forall_nil].
    + by eexists _, [_].
  - eexists [], _. cbn [fst snd log_call call_log _pamh app length calls_of
                        ev_handle ev_flags ev_argv ev_result].
    split; [done|]. split; [done|]. split; [done|]. split; [done|].
    split; [done|]. split; [lia|]. split; [done|]. split.
    + apply Forall_cons. split; [split; [done|by left]|by apply Forall_nil].
    + by eexists _, [].
Qed.

(** C3: when the function [f] of an entry point is bound, a call of the
    dispatcher calls [f], and ends as the last call of [f] it made ended.
    If that call returned an integer [r]: when [r] is zero the dispatcher
    returns it and raises nothing; when [r] is not zero it raises [error],
    with the handle's [PAM_PERM_DENIED] (6 when the handle has none) if [r]
    equals the handle's [PAM_IGNORE] (25 when the handle has none), and with
    [r] itself if not.  This holds for each of the six calls; the five that
    are not [chauthtok] make a single call of [f], with the flags given. *)
Theorem integer_result_translation (ep : entry_point) (flags argv : pyval)
    (st : t) (m : pymodule) (f : entry_fn) :
  _user_module st = Some m ->
  names m !! handler_name ep = Some (ModFunc f) ->
  let out := (invoke ep flags argv st).1 in
  let h' := _pamh (invoke ep flags argv st).2 in
  exists evs ev,
    call_log (invoke ep flags argv st).2 = call_log st ++ evs ++ [ev] /\
    calls_of f (_pamh st) (evs ++ [ev]) h' /\
    h' = (f (ev_handle ev) (ev_flags ev) (ev_argv ev)).2 /\
    (ep <> Chauthtok ->
       evs = [] /\ ev_flags ev = flags /\
       ev_argv ev = resolve_argv st m (handler_name ep) argv) /\
    forall r,
      (f (ev_handle ev) (ev_flags ev) (ev_argv ev)).1 = Return r ->
      is_int r = true ->
      (int_eq r (PyInt 0) = true -> out = Return r) /\
      (int_eq r (PyInt 0) = false ->
       int_eq r (getattr_pamh h' "PAM_IGNORE" (PyInt 25)) = true ->
       out = Raise (error (PyStr "pam service returned error")
                      (getattr_pamh h' "PAM_PERM_DENIED" (PyInt 6)))) /\
      (int_eq r (PyInt 0) = false ->
       int_eq r (getattr_pamh h' "PAM_IGNORE" (PyInt 25)) = false ->
       out = Raise (error (PyStr "pam service returned error") r)).
Proof.
  intros Hm Hf. cbv zeta.
  destruct (invoke_calls ep flags argv st m f Hm Hf)
    as (evs & ev & Hlog & Hcalls & Hres & Hh & Hout & _ & Hone & _ &
        first & rest & Hfirst & Hargv).
  exists evs, ev. split; [exact Hlog|]. split; [exact Hcalls|].
  split; [exact Hh|]. split.
  { intros Hep. destruct (Hone Hep) as [-> Hfl].
    injection Hfirst as <- _. done. }
  intros r Hr Hint. rewrite Hout, Hres, Hr, outcome_int by done.
  repeat split; intros Hz; rewrite Hz; [done| |]; by intros ->.
Qed.


Lemma resolve_argv_same (st : t) (h : option PamHandle) (ev : call_event)
    (m : pymodule) (name : string) (argv : pyval) :
  argv <> PyNone \/
  (exists svc table l, service_map name = Some svc /\
     _service_args st = Some table /\ table !! svc = Some l) \/
  __file__ m <> PyNone ->
  resolve_argv (log_call ev h st) m name argv = resolve_argv st m name argv.
Proof.
  intros H. unfold resolve_argv. cbn [log_call _service_args _pamh].
  destruct argv; try done.
  destruct H as [H|[(svc & table & l & -> & -> & ->)|H]]; [done|done|].
  destruct (match service_map name with Some _ => _ | None => _ end); try done.
  destruct (__file__ m); try done.
Qed.

(** C1, amended: when the module binds [pam_sm_chauthtok] to a function,
    [chauthtok] calls it with the handle's [PAM_PRELIM_CHECK] (16384 when the
    handle has none).  If that call raises or returns an integer that is not
    zero, its failure is what [chauthtok] raises and there is no second call.
    Otherwise the value it returned is dropped, the function is called a
    second time with the [PAM_UPDATE_AUTHTOK] read before the first call
    (8192 when the handle had none) and [chauthtok] ends as that second call
    ends; the module has then been called exactly twice, in this order.  Each
    call receives the argument vector resolved when it is made; the two are
    equal when an [argv] is given, when the configuration has arguments for
    [password], or when the module has a [__file__]. *)
Theorem chauthtok_two_phases (flags argv : pyval) (st : t) (m : pymodule)
    (f : entry_fn) :
  _user_module st = Some m ->
  names m !! "pam_sm_chauthtok" = Some (ModFunc f) ->
  let prelim := getattr_pamh (_pamh st) "PAM_PRELIM_CHECK" (PyInt 16384) in
  let update := getattr_pamh (_pamh st) "PAM_UPDATE_AUTHTOK" (PyInt 8192) in
  let argv1 := resolve_argv st m "pam_sm_chauthtok" argv in
  let first := f (_pamh st) prelim argv1 in
  let ev1 := {| ev_name := "pam_sm_chauthtok"; ev_handle := _pamh st;
                ev_flags := prelim; ev_argv := argv1;
                ev_result := first.1 |} in
  let st1 := log_call ev1 first.2 st in
  let argv2 := resolve_argv st1 m "pam_sm_chauthtok" argv in
  let second := f first.2 update argv2 in
  let ev2 := {| ev_name := "pam_sm_chauthtok"; ev_handle := first.2;
                ev_flags := update; ev_argv := argv2;
                ev_result := second.1 |} in
  (forall e, outcome first.1 first.2 = Raise e ->
     chauthtok flags argv st = (Raise e, st1) /\
     call_log st1 = call_log st ++ [ev1]) /\
  (forall v, outcome first.1 first.2 = Return v ->
     (chauthtok flags argv st).1 = outcome second.1 second.2 /\
     call_log (chauthtok flags argv st).2 = call_log st ++ [ev1; ev2] /\
     _pamh (chauthtok flags argv st).2 = second.2) /\
  (argv <> PyNone \/
   (exists table l, _service_args st = Some table /\
      table !! "password" = Some l) \/
   __file__ m <> PyNone ->
   argv2 = argv1).
Proof.
  intros Hm Hf. cbv zeta.
  rewrite chauthtok_unfold. cbv zeta.
  rewrite (call_handler_calls _ _ _ _ _ _ Hm Hf). cbn [fst snd].
  split; [|split].
  - intros e He. by rewrite He.
  - intros v Hv. rewrite Hv.
    rewrite (call_handler_calls _ _ _ _ m f) by done.
    cbn [fst snd log_call call_log _pamh].
    by rewrite <- app_assoc.
  - intros H. apply resolve_argv_same.
    destruct H as [H|[(table & l & Ht & Hl)|H]]; [by left| |by right; right].
    right; left. by exists "password", table, l.
Qed.

End DispatchFacts.

(** ** start and the end-to-end scenario *)

Section StartFacts.

Import pam.

Variable py_str : pyval -> string.
Variable py_repr : pyval -> string.

(** A successful [start] leaves a loaded module, a sealed handle and a
    table of service arguments. *)
Lemma start_returns (fs : filesystem) (cfg : string) (user conv : pyval)
    (st0 st : t) (v : pyval) :
  start fs cfg user conv st0 = (Return v, st) ->
  exists m h table,
    _user_module st = Some m /\ _pamh st = Some h /\
    _service_args st = Some table /\ call_log st = call_log st0.
Proof.
  unfold start.
  destruct (match read_text fs (config_path fs cfg) with
            | Some _ => _ | None => _ end) as [script|]; [|discriminate].
  destruct (exec_module fs script) as [m|e]; [|discriminate].
  destruct (PamHandle_type.__init__ _ _ _) as [h0|e]; [|discriminate].
  destruct (PamHandle_type._populate_constants _ _) as [[[]|e] h1];
    [|discriminate].
  destruct (PamHandle_type.__setattr__ "env" _ h1) as [h2|e]; [|discriminate].
  intros [= _ <-]. by eexists _, _, _.
Qed.

(** A constant named as the convention has it takes none of the names the
    code reads away. *)
Lemma conventional_names_are_unused (k : string) :
  constant_name (PyStr k) = true -> k ∉ names_in_use.
Proof.
  intros H Hin. unfold names_in_use in Hin.
  repeat (apply elem_of_cons in Hin as [->|Hin];
          [vm_compute in H; discriminate|]).
  by apply elem_of_nil in Hin.
Qed.

(** C2, amended: let the configuration file consist of the line
    [login auth /lib/pam_python.so /opt/mod.py arg1 arg2], let [/opt/mod.py]
    load as a module whose [__file__] is that path and whose constants, if
    it has any, have names that begin with [PAM_] or [_PAM_], and let the
    user be a string.  Then [start] finds the script [/opt/mod.py], loads it
    and returns, and the table of service arguments is
    [{login: [/opt/mod.py, arg1, arg2]}]: the key is the first field of the
    line and the arguments begin with the script.  The table has no entry
    for [auth], so when the module binds [pam_sm_authenticate] to a function
    [f], [authenticate(0)] without [argv] calls [f(handle, 0, [/opt/mod.py])]
    once and ends as that call ends, translated. *)
Theorem scenario_login_line (fs : filesystem) (cfg content : string)
    (user conv : pyval) (st0 : t) (m : pymodule) :
  read_text fs (config_path fs cfg) = Some content ->
  file_lines content = [Examples.scenario_line] ->
  exec_module fs "/opt/mod.py" = Return m ->
  __file__ m = PyStr "/opt/mod.py" ->
  conventional_constants (PAM_CONSTANTS m) ->
  is_str user = true ->
  find_script (file_lines content) = Some "/opt/mod.py" /\
  exists st h,
    start fs cfg user conv st0 = (Return PyNone, st) /\
    _user_module st = Some m /\
    _pamh st = Some h /\
    _service_args st = Some {[ "login" := ["/opt/mod.py"; "arg1"; "arg2"] ]} /\
    call_log st = call_log st0 /\
    forall f, names m !! "pam_sm_authenticate" = Some (ModFunc f) ->
      let argv := PyList [PyStr "/opt/mod.py"] in
      let ev := {| ev_name := "pam_sm_authenticate"; ev_handle := Some h;
                   ev_flags := PyInt 0; ev_argv := argv;
                   ev_result := (f (Some h) (PyInt 0) argv).1 |} in
      (authenticate py_str py_repr (PyInt 0) PyNone st).1 =
        outcome py_str py_repr (f (Some h) (PyInt 0) argv).1
          (f (Some h) (PyInt 0) argv).2 /\
      call_log (authenticate py_str py_repr (PyInt 0) PyNone st).2 =
        call_log st0 ++ [ev] /\
      _pamh (authenticate py_str py_repr (PyInt 0) PyNone st).2 =
        (f (Some h) (PyInt 0) argv).2.
Proof.
  intros Hread Hlines Hexec Hfile Hkeys Huser.
  split; [by rewrite Hlines|].
  unfold start. cbv zeta. rewrite Hread, Hlines.
  change (find_script [Examples.scenario_line]) with (Some "/opt/mod.py").
  cbv beta iota. rewrite Hexec.
  rewrite (init_returns _ _ _ Huser).
  match goal with
  | |- context [PamHandle_type._populate_constants _ ?h0] =>
      destruct (populate_returns (PAM_CONSTANTS m) h0 Hkeys) as (h1 & Hpop & Hs);
      rewrite Hpop
  end.
  rewrite (setattr_other h1 "env") by (done || by left).
  eexists _, _. split; [reflexivity|].
  cbn [set_service_args set_pamh set_user_module _user_module _pamh
       _service_args call_log].
  split; [done|]. split; [done|].
  assert (scan_args [Examples.scenario_line]
          = {[ "login" := ["/opt/mod.py"; "arg1"; "arg2"] ]}) as ->.
  { vm_compute. reflexivity. }
  split; [done|]. split; [done|].
  intros f Hf. cbv zeta. unfold authenticate.
  erewrite call_handler_calls; [|cbn; reflexivity|exact Hf].
  cbn [fst snd log_call call_log _pamh].
  assert (forall st', _service_args st' =
            Some {[ "login" := ["/opt/mod.py"; "arg1"; "arg2"] ]} ->
          resolve_argv st' m "pam_sm_authenticate" PyNone
            = PyList [PyStr "/opt/mod.py"]) as Hargv.
  { intros st' Hst'. unfold resolve_argv.
    change (service_map "pam_sm_authenticate") with (Some "auth").
    rewrite Hst', lookup_singleton_ne by done. by rewrite Hfile. }
  rewrite Hargv by done. done.
Qed.

End StartFacts.

(** ** The statements at concrete modules *)

Section Instances.

Import Examples.


Lemma missing_entry_point_symbol_not_found_witness :
  pam._user_module (started module_without_entry_points)
    = Some module_without_entry_points /\
  (names module_without_entry_points !! pam.handler_name pam.Setcred = None \/
   exists v, names module_without_entry_points !! pam.handler_name pam.Setcred
             = Some (ModVal v)) /\
  pam.invoke example_str example_str pam.Setcred (PyInt 0) PyNone
    (started module_without_entry_points)
  = (Raise (error (PyStr "Symbol not found") (PyInt 2)),
     started module_without_entry_points).
Proof.
  assert (pam._user_module (started module_without_entry_points)
          = Some module_without_entry_points) as Hm by reflexivity.
  assert (names module_without_entry_points !! pam.handler_name pam.Setcred
          = None \/
          exists v, names module_without_entry_points
                      !! pam.handler_name pam.Setcred = Some (ModVal v)) as Hn.
  { right. exists (PyInt 1). reflexivity. }
  split; [exact Hm|]. split; [exact Hn|].
  exact (missing_entry_point_symbol_not_found example_str example_str pam.Setcred (PyInt 0)
           PyNone _ _ Hm Hn).
Defined.

(** The one call in the log of a dispatcher that had made none. *)
Lemma single_call_is_last (ev0 ev : pam.call_event) (evs : list pam.call_event) :
  [ev0] = [] ++ evs ++ [ev] -> ev = ev0.
Proof.
  destruct evs as [|e1 evs]; simpl; [by intros [= ->]|].
  intros [= _ H]. by destruct evs.
Qed.

Lemma integer_result_translation_witness :
  let m := module_with (constant_fn (Return (PyInt 25))) in
  pam._user_module (started m) = Some m /\
  names m !! pam.handler_name pam.Authenticate
    = Some (ModFunc (constant_fn (Return (PyInt 25)))) /\
  (pam.invoke example_str example_str pam.Authenticate (PyInt 0) PyNone
     (started m)).1
    = Raise (error (PyStr "pam service returned error") (PyInt 6)).
Proof.
  intros m.
  assert (pam._user_module (started m) = Some m) as Hm by reflexivity.
  assert (names m !! pam.handler_name pam.Authenticate
          = Some (ModFunc (constant_fn (Return (PyInt 25))))) as Hf
    by reflexivity.
  split; [exact Hm|]. split; [exact Hf|].
  destruct (integer_result_translation example_str example_str
              pam.Authenticate (PyInt 0) PyNone _ _ _ Hm Hf)
    as (evs & ev & Hlog & _ & _ & _ & Hev).
  apply single_call_is_last in Hlog. subst ev.
  destruct (Hev (PyInt 25) eq_refl eq_refl) as (_ & Hignore & _).
  apply Hignore; reflexivity.
Defined.



(** C1, as the specification states it, fails: when [pam_sm_chauthtok]
    returns 7, [chauthtok] raises [error] with code 7 after a single call,
    the one with the preliminary-check flag. *)
Lemma chauthtok_stops_after_failed_check :
  let st := started (module_with (constant_fn (Return (PyInt 7)))) in
  pam.call_log st = [] /\
  (pam.chauthtok example_str example_str (PyInt 0) PyNone st).1
    = Raise (error (PyStr "pam service returned error") (PyInt 7)) /\
  map pam.ev_flags (pam.call_log (pam.chauthtok example_str example_str (PyInt 0) PyNone st).2)
    = [PyInt 16384].
Proof. repeat split; vm_compute; reflexivity. Qed.

Lemma chauthtok_two_phases_witness :
  let f := constant_fn (Return (PyInt 0)) in
  let st := started (module_with f) in
  pam._user_module st = Some (module_with f) /\
  names (module_with f) !! "pam_sm_chauthtok" = Some (ModFunc f) /\
  (pam.chauthtok example_str example_str (PyInt 0) PyNone st).1 = Return (PyInt 0) /\
  map pam.ev_flags (pam.call_log (pam.chauthtok example_str example_str (PyInt 0) PyNone st).2)
    = [PyInt 16384; PyInt 8192].
Proof.
  intros f st.
  assert (pam._user_module st = Some (module_with f)) as Hm by reflexivity.
  assert (names (module_with f) !! "pam_sm_chauthtok" = Some (ModFunc f))
    as Hf by reflexivity.
  split; [exact Hm|]. split; [exact Hf|].
  destruct (chauthtok_two_phases example_str example_str (PyInt 0) PyNone st _ _ Hm Hf)
    as (_ & Htwo & _).
  destruct (Htwo (PyInt 0) eq_refl) as (Hout & Hlog & _).
  split; [exact Hout|]. rewrite Hlog. reflexivity.
Defined.

(** C2, as the specification states it, fails: after [start] on the line of
    the scenario the table of service arguments has the key [login], not
    [auth], its arguments begin with the script, and [authenticate(0)]
    passes [[/opt/mod.py]] to the module, not [[arg1, arg2]]. *)
Lemma scenario_table_is_keyed_by_login :
  let st := started (module_with (constant_fn (Return (PyInt 0)))) in
  pam._service_args st
    = Some {[ "login" := ["/opt/mod.py"; "arg1"; "arg2"] ]} /\
  pam._service_args st <> Some {[ "auth" := ["arg1"; "arg2"] ]} /\
  map (fun ev => (pam.ev_name ev, pam.ev_flags ev, pam.ev_argv ev))
    (pam.call_log (pam.authenticate example_str example_str (PyInt 0) PyNone st).2)
    = [("pam_sm_authenticate", PyInt 0, PyList [PyStr "/opt/mod.py"])].
Proof.
  intros st.
  assert (pam._service_args st
          = Some {[ "login" := ["/opt/mod.py"; "arg1"; "arg2"] ]}) as Ht.
  { vm_compute. reflexivity. }
  split; [exact Ht|]. split.
  - rewrite Ht. intros H.
    apply (f_equal (fun t => t ≫= (.!! "auth"))) in H.
    vm_compute in H. discriminate.
  - vm_compute. reflexivity.
Qed.

Lemma scenario_login_line_witness :
  let m := module_with (constant_fn (Return (PyInt 0))) in
  let content := scenario_line +:+ String "010" EmptyString in
  read_text (scenario_fs m) (pam.config_path (scenario_fs m) "/etc/pam.d/login")
    = Some content /\
  file_lines content = [scenario_line] /\
  exec_module (scenario_fs m) "/opt/mod.py" = Return m /\
  __file__ m = PyStr "/opt/mod.py" /\
  is_str (PyStr "alice") = true /\
  conventional_constants (PAM_CONSTANTS m) /\
  exists st h,
    pam.start (scenario_fs m) "/etc/pam.d/login" (PyStr "alice") (PyCallable 0)
      pam.__init__ = (Return PyNone, st) /\
    pam._pamh st = Some h /\
    pam._service_args st
      = Some {[ "login" := ["/opt/mod.py"; "arg1"; "arg2"] ]} /\
    (pam.authenticate example_str example_str (PyInt 0) PyNone st).1 = Return (PyInt 0).
Proof.
  intros m content.
  assert (conventional_constants (PAM_CONSTANTS m)) as Hkeys
    by (intros items; discriminate).
  repeat (split; [reflexivity|]).
  split; [exact Hkeys|].
  destruct (scenario_login_line example_str example_str (scenario_fs m) "/etc/pam.d/login"
              content (PyStr "alice") (PyCallable 0) pam.__init__ m
              eq_refl eq_refl eq_refl eq_refl Hkeys eq_refl)
    as (_ & st & h & Hstart & _ & Hh & Htable & _ & Hauth).
  exists st, h. split; [exact Hstart|]. split; [exact Hh|].
  split; [exact Htable|].
  destruct (Hauth (constant_fn (Return (PyInt 0))) eq_refl) as [Hout _].
  rewrite Hout. reflexivity.
Defined.

End Instances.

(** ** Further properties of the transaction handle *)

Section HandleMore.

Import PamHandle_type.

(** Case analysis on the next comparison of a name with a literal. *)
Ltac case_item_name :=
  match goal with
  | |- context [String.eqb ?n ?s] =>
      destruct (String.eqb_spec n s) as [->|_]
  | H : context [String.eqb ?n ?s] |- _ =>
      destruct (String.eqb_spec n s) as [->|_]
  end.

Lemma setattr_returns_insert (h h' : PamHandle) (name : string) (v : pyval) :
  slot_name name = false ->
  __setattr__ name v h = Return h' -> h' = <[name := v]> h.
Proof.
  intros Hslot. unfold __setattr__.
  rewrite (object_setattr_plain _ _ _ Hslot).
  destruct (startswith name "_"); [by intros [= <-]|].
  destruct (_ && _); [discriminate|].
  destruct (_item_const name); [destruct (is_str v); [|discriminate]|];
    by intros [= <-].
Qed.

Lemma attr_insert_ne (h : PamHandle) (name other : string) (v : pyval) :
  other <> name -> attr (<[name := v]> h) other = attr h other.
Proof. intros H. unfold attr. by rewrite lookup_insert_ne. Qed.

Lemma init_raises (module_path user conv : pyval) :
  is_str user = false ->
  __init__ module_path user conv =
    Raise (Exc TypeError [PyStr "PAM item PAM_USER must be set to a string"]).
Proof.
  intros Hu. unfold __init__.
  rewrite (setattr_other _ "module") by (done || by left). cbn [bind].
  rewrite (setattr_other _ "module_path") by (done || by left). cbn [bind].
  by rewrite (setattr_item_type_error _ "user" "PAM_USER").
Qed.

(** X1: the constructor of the handle returns exactly when [user] is a
    string; the handle it returns is not sealed and holds the three
    arguments.  With any other [user], the default [None] included, it
    raises the [TypeError] of the item [PAM_USER]. *)
Theorem handle_init_needs_string_user (module_path user conv : pyval) :
  (is_str user = true ->
   exists h, __init__ module_path user conv = Return h /\
     ~ sealed h /\ h !! "module_path" = Some module_path /\
     h !! "user" = Some user /\ h !! "conv" = Some conv) /\
  (is_str user = false ->
   __init__ module_path user conv =
     Raise (Exc TypeError [PyStr "PAM item PAM_USER must be set to a string"])).
Proof.
  split; intros Hu.
  - eexists. split; [by apply init_returns|].
    split; [by vm_compute|]. by simplify_map_eq.
  - by apply init_raises.
Qed.

Lemma handle_init_needs_string_user_witness :
  is_str PyNone = false /\
  __init__ PyNone PyNone PyNone =
    Raise (Exc TypeError [PyStr "PAM item PAM_USER must be set to a string"]).
Proof.
  split; [reflexivity|].
  by apply (handle_init_needs_string_user PyNone PyNone PyNone).
Defined.

(** X2: let [name] be none of [__class__], [__dict__] and [__weakref__].
    An assignment to [name] that [__setattr__] accepts is read back by the
    attribute read, and the read of every other name that is none of the
    three is as before.  A dictionary assigned to [__dict__] is accepted as
    well, and replaces the attributes of the handle by its own items. *)
Theorem setattr_then_read (h h' : PamHandle) (name : string) (v : pyval) :
  (slot_name name = false ->
   __setattr__ name v h = Return h' ->
   attr h' name = Return v /\
   forall other, slot_name other = false -> other <> name ->
     attr h' other = attr h other) /\
  (forall items,
     __setattr__ "__dict__" (PyDict items) h = Return (dict_attributes items)).
Proof.
  split; [|reflexivity].
  intros Hslot ->%setattr_returns_insert; [|done]. split.
  - unfold attr. by rewrite lookup_insert_eq.
  - intros other _ Hne. by apply attr_insert_ne.
Qed.

Lemma setattr_then_read_witness :
  slot_name "tty" = false /\
  __setattr__ "tty" (PyStr "/dev/pts/0") Examples.sealed_handle
    = Return (<["tty" := PyStr "/dev/pts/0"]> Examples.sealed_handle) /\
  attr (<["tty" := PyStr "/dev/pts/0"]> Examples.sealed_handle) "tty"
    = Return (PyStr "/dev/pts/0").
Proof.
  assert (__setattr__ "tty" (PyStr "/dev/pts/0") Examples.sealed_handle
    = Return (<["tty" := PyStr "/dev/pts/0"]> Examples.sealed_handle)) as H
    by reflexivity.
  split; [reflexivity|]. split; [exact H|].
  exact (proj1 (proj1 (setattr_then_read _ _ "tty" _) eq_refl H)).
Defined.

(** X3: the two tables of item names agree.  A name whose assignment
    [__setattr__] validates reads as [None] while it is not set, is read
    back after it was set to a string, and cannot be set to anything that is
    not a string, sealed handle or not. *)
Theorem item_attribute_life (h : PamHandle) (name const : string) :
  _item_const name = Some const ->
  (h !! name = None -> attr h name = Return PyNone) /\
  (forall s, exists h', __setattr__ name (PyStr s) h = Return h' /\
     attr h' name = Return (PyStr s)) /\
  (forall v, is_str v = false ->
     __setattr__ name v h =
       Raise (Exc TypeError
         [PyStr ("PAM item " +:+ const +:+ " must be set to a string")])).
Proof.
  intros Hi. split; [|split].
  - intros Hn. unfold attr. rewrite Hn. unfold _item_const in Hi.
    repeat case_item_name; try discriminate; reflexivity.
  - intros s. exists (<[name := PyStr s]> h).
    assert (__setattr__ name (PyStr s) h = Return (<[name := PyStr s]> h)) as H.
    { apply setattr_other; [by eapply item_name_no_slot| |by right].
      unfold _item_const in Hi.
      repeat case_item_name; try discriminate; reflexivity. }
    split; [exact H|]. unfold attr. by rewrite lookup_insert_eq.
  - intros v Hv. by apply setattr_item_type_error.
Qed.

Lemma item_attribute_life_witness :
  _item_const "rhost" = Some "PAM_RHOST" /\
  attr Examples.sealed_handle "rhost" = Return PyNone /\
  __setattr__ "rhost" (PyInt 7) Examples.sealed_handle =
    Raise (Exc TypeError [PyStr "PAM item PAM_RHOST must be set to a string"]).
Proof.
  split; [reflexivity|].
  destruct (item_attribute_life Examples.sealed_handle "rhost" "PAM_RHOST"
              eq_refl) as (Hunset & _ & Hbad).
  split; [by apply Hunset|]. by apply Hbad.
Defined.

(** X4: on a sealed handle, an assignment to a name that does not begin with
    an underscore leaves the handle sealed and changes no attribute whose
    name begins with [PAM_]. *)
Theorem public_assignment_keeps_constants (h h' : PamHandle) (name : string)
    (v : pyval) :
  sealed h -> startswith name "_" = false ->
  __setattr__ name v h = Return h' ->
  sealed h' /\
  forall k, startswith k "PAM_" = true -> h' !! k = h !! k.
Proof.
  intros Hs Hu Hset.
  pose proof (setattr_returns_insert _ _ _ _ (no_underscore_no_slot _ Hu) Hset)
    as ->. split.
  - unfold sealed, getattr, attr in *. rewrite lookup_insert_ne; [done|].
    intros ->. by vm_compute in Hu.
  - intros k Hk. apply lookup_insert_ne. intros ->.
    by rewrite (setattr_sealed_PAM _ _ _ Hs Hk) in Hset.
Qed.

Lemma public_assignment_keeps_constants_witness :
  sealed Examples.sealed_handle /\
  startswith "user" "_" = false /\
  __setattr__ "user" (PyStr "bob") Examples.sealed_handle
    = Return (<["user" := PyStr "bob"]> Examples.sealed_handle) /\
  sealed (<["user" := PyStr "bob"]> Examples.sealed_handle) /\
  (<["user" := PyStr "bob"]> Examples.sealed_handle) !! "PAM_SUCCESS"
    = Examples.sealed_handle !! "PAM_SUCCESS".
Proof.
  assert (__setattr__ "user" (PyStr "bob") Examples.sealed_handle
    = Return (<["user" := PyStr "bob"]> Examples.sealed_handle)) as H
    by reflexivity.
  split; [reflexivity|]. split; [reflexivity|]. split; [exact H|].
  assert (sealed Examples.sealed_handle) as Hsealed by reflexivity.
  destruct (public_assignment_keeps_constants Examples.sealed_handle _ "user"
              (PyStr "bob") Hsealed eq_refl H) as [Hs Hk].
  split; [exact Hs|]. by apply Hk.
Defined.

(** X5: the seal is an attribute like another: assigning a false value to
    [_constants_locked] always succeeds, and on the handle it leaves every
    name that begins with [PAM_] can be assigned again. *)
Theorem seal_can_be_lifted (h : PamHandle) (name : string) (v : pyval) :
  let h' := <["_constants_locked" := PyBool false]> h in
  __setattr__ "_constants_locked" (PyBool false) h = Return h' /\
  ~ sealed h' /\
  (startswith name "PAM_" = true ->
   __setattr__ name v h' = Return (<[name := v]> h')).
Proof.
  cbv zeta. split; [by apply setattr_underscore|].
  assert (truthy (getattr (<["_constants_locked" := PyBool false]> h)
                    "_constants_locked" (PyBool false)) = false) as Hf
    by by rewrite getattr_insert_eq.
  split.
  - unfold sealed. by rewrite Hf.
  - intros Hp. by apply setattr_unsealed_PAM.
Qed.

Lemma seal_can_be_lifted_witness :
  startswith "PAM_SUCCESS" "PAM_" = true /\
  __setattr__ "PAM_SUCCESS" (PyInt 1)
    (<["_constants_locked" := PyBool false]> Examples.sealed_handle)
  = Return (<["PAM_SUCCESS" := PyInt 1]>
            (<["_constants_locked" := PyBool false]> Examples.sealed_handle)).
Proof.
  split; [reflexivity|].
  by apply (seal_can_be_lifted Examples.sealed_handle "PAM_SUCCESS" (PyInt 1)).
Defined.

(** X6: [XAuthData] builds its value exactly when both arguments are
    strings; otherwise it raises a [TypeError], which names the first
    argument when that one is not a string. *)
Theorem xauthdata_needs_two_strings (name data : pyval) :
  (is_str name = true -> is_str data = true ->
   construct "XAuthData" name data =
     Return (PyInst "XAuthData" [("name", name); ("data", data)])) /\
  (is_str name = false ->
   construct "XAuthData" name data =
     Raise (Exc TypeError
       [PyStr ("XAuthData() argument 1 must be string, not " +:+
               match name with PyNone => "None" | _ => type_name name end)])) /\
  (is_str name = true -> is_str data = false ->
   construct "XAuthData" name data =
     Raise (Exc TypeError
       [PyStr ("XAuthData() argument 2 must be string, not " +:+
               match data with PyNone => "None" | _ => type_name data end)])).
Proof.
  unfold construct; simpl; unfold XAuthData.
  repeat split; intros; repeat match goal with H : _ = _ |- _ => rewrite H end;
    reflexivity.
Qed.

Lemma xauthdata_needs_two_strings_witness :
  is_str (PyInt 3) = false /\
  construct "XAuthData" (PyInt 3) PyNone =
    Raise (Exc TypeError
      [PyStr "XAuthData() argument 1 must be string, not int"]).
Proof.
  split; [reflexivity|].
  by apply (xauthdata_needs_two_strings (PyInt 3) PyNone).
Defined.

(** [get_user] never raises: it returns the attribute [user] of the handle,
    and [None] when the handle has none. *)
Lemma get_user_returns (h : PamHandle) :
  get_user h = Return (match h !! "user" with Some u => u | None => PyNone end).
Proof.
  unfold get_user, getattr, attr.
  destruct (h !! "user") as [u|] eqn:Hu; [|reflexivity].
  by destruct u.
Qed.

End HandleMore.

(** ** strerror *)

Section StrerrorFacts.

Import PamHandle_type.

Variable raised_by : pyval -> list pyval -> pyexc.

Lemma msgs_get_large (c : Z) :
  32 <= c -> msgs_get (PyInt c) = Return (PyStr "Unknown error").
Proof.
  intros Hc. unfold msgs_get. cbn [hashable negb int_value].
  destruct c as [|p|p]; try lia.
  do 6 (destruct p as [p|p|]; try lia; try reflexivity).
Qed.


(** X8: let the handle hold its class [PamException] under [exception] and
    an integer [n] under [_PAM_RETURN_VALUES] (32 when it has none).  For an
    integer [c] from [debug_magic] on, [strerror] raises
    [PamException(c - debug_magic, 'debug')] when
    [debug_magic < c < debug_magic + n], and returns ['Unknown error'] for
    [debug_magic] itself and from [debug_magic + n] on. *)
Theorem strerror_debug_range (h : PamHandle) (c n : Z) :
  h !! "exception" = Some (PyClass "PamException") ->
  int_value (getattr h "_PAM_RETURN_VALUES" (PyInt 32)) = Some n ->
  debug_magic <= c ->
  (debug_magic < c -> c < debug_magic + n ->
   strerror raised_by h (PyInt c) =
     Raise (PamException (PyInt (c - debug_magic)) [PyStr "debug"])) /\
  (c = debug_magic \/ debug_magic + n <= c ->
   strerror raised_by h (PyInt c) = Return (PyStr "Unknown error")).
Proof.
  intros He Hn Hc.
  assert (32 <= c) as Hbig by (unfold debug_magic in Hc; lia).
  unfold strerror. cbn [int_value].
  destruct (Z.leb_spec debug_magic c); [|lia]. cbv zeta. rewrite Hn.
  split.
  - intros Hlo Hhi.
    destruct (Z.ltb_spec c (debug_magic + n)); [|lia].
    destruct (Z.eqb_spec (c - debug_magic) 0); [lia|]. cbn [negb].
    unfold raise_debug, attr. by rewrite He.
  - intros Hedge.
    destruct (Z.ltb_spec c (debug_magic + n)); [|by apply msgs_get_large].
    destruct (Z.eqb_spec (c - debug_magic) 0); [|lia]. cbn [negb].
    by apply msgs_get_large.
Qed.

End StrerrorFacts.


Lemma strerror_debug_range_witness :
  Examples.sealed_handle !! "exception" = Some (PyClass "PamException") /\
  int_value (PamHandle_type.getattr Examples.sealed_handle
               "_PAM_RETURN_VALUES" (PyInt 32)) = Some 32 /\
  PamHandle_type.debug_magic <= PamHandle_type.debug_magic + 6 /\
  PamHandle_type.strerror Examples.no_callable Examples.sealed_handle
    (PyInt (PamHandle_type.debug_magic + 6))
    = Raise (PamException (PyInt 6) [PyStr "debug"]).
Proof.
  split; [reflexivity|]. split; [reflexivity|]. split; [discriminate|].
  destruct (strerror_debug_range Examples.no_callable Examples.sealed_handle
              (PamHandle_type.debug_magic + 6) 32 eq_refl eq_refl)
    as [Hin _]; [discriminate|].
  apply Hin; reflexivity.
Defined.

(** ** Further properties of the environment mapping *)

Section EnvMore.

Import PamEnvMapping.

Lemma check_key_valid (key : pyval) (k : string) :
  check_key key = Return k <-> key = PyStr k /\ valid_key k = true.
Proof.
  unfold check_key, valid_key. split.
  - destruct key; try done.
    destruct (String.eqb s "") eqn:He; [done|].
    destruct (contains_char "=" s) eqn:Hc; [done|].
    intros [= <-]. by rewrite He, Hc.
  - intros [-> [He Hc]%andb_true_iff].
    apply negb_true_iff in He, Hc. by rewrite He, Hc.
Qed.

Lemma setitem_returns (key value : pyval) (d d' : gmap string string) :
  __setitem__ key value d = Return d' ->
  exists k v, key = PyStr k /\ value = PyStr v /\ valid_key k = true /\
    d' = <[k := v]> d.
Proof.
  unfold __setitem__. destruct (check_key key) as [k|e] eqn:Hk; [|done].
  apply check_key_valid in Hk as [-> Hk]. cbn [bind].
  destruct value; try done. intros [= <-]. by eexists _, _.
Qed.

(** X9: [__setitem__] stores exactly when the key is a string that is not
    empty and has no [=] and the value is a string.  The key is checked
    first: a key that is not a string raises a [TypeError] and a string that
    is empty or has an [=] raises a [ValueError], whatever the value; with a
    good key, a value that is not a string raises a [TypeError]. *)
Theorem env_setitem_checks (key value : pyval) (d : gmap string string) :
  ((exists d', __setitem__ key value d = Return d') <->
   exists k v, key = PyStr k /\ valid_key k = true /\ value = PyStr v) /\
  (is_str key = false ->
   __setitem__ key value d =
     Raise (Exc TypeError [PyStr "PAM environment key must be a string"])) /\
  (forall k, key = PyStr k -> valid_key k = false ->
   exists text, __setitem__ key value d = Raise (Exc ValueError [PyStr text])) /\
  (forall k, key = PyStr k -> valid_key k = true -> is_str value = false ->
   __setitem__ key value d =
     Raise (Exc TypeError [PyStr "PAM environment value must be a string"])).
Proof.
  split; [|split; [|split]].
  - split.
    + intros [d' H]. apply setitem_returns in H as (k & v & -> & -> & Hk & _).
      by exists k, v.
    + intros (k & v & -> & Hk & ->). unfold __setitem__.
      rewrite (proj2 (check_key_valid (PyStr k) k)) by done. by eexists.
  - intros Hs. unfold __setitem__, check_key. by destruct key.
  - intros k -> Hv. unfold __setitem__, check_key. unfold valid_key in Hv.
    destruct (String.eqb k ""); [by eexists|].
    destruct (contains_char "=" k); [by eexists|done].
  - intros k -> Hk Hv. unfold __setitem__.
    rewrite (proj2 (check_key_valid (PyStr k) k)) by done. cbn [bind].
    by destruct value.
Qed.

Lemma env_setitem_checks_witness :
  valid_key "" = false /\
  exists text,
    __setitem__ (PyStr "") (PyInt 5) ∅ = Raise (Exc ValueError [PyStr text]).
Proof.
  split; [reflexivity|].
  destruct (env_setitem_checks (PyStr "") (PyInt 5) ∅) as (_ & _ & Hbad & _).
  by apply (Hbad "").
Defined.

(** X10: a [__setitem__] that returns changes one key only: every other key
    reads as before, with [get] and with [__getitem__]; the length grows by
    one for a new key and stays for a key that was there. *)
Theorem env_setitem_frame (key value : pyval) (d d' : gmap string string) :
  __setitem__ key value d = Return d' ->
  (forall other default, other <> key ->
     get other default d' = get other default d /\
     __getitem__ other d' = __getitem__ other d) /\
  (__contains__ key d = Return true -> __len__ d' = __len__ d) /\
  (__contains__ key d = Return false -> __len__ d' = S (__len__ d)).
Proof.
  intros (k & v & -> & -> & Hk & ->)%setitem_returns. split; [|split].
  - intros other default Hne. unfold get, __getitem__.
    destruct other; try done.
    assert (k <> s) as Hks by congruence.
    rewrite lookup_insert_ne by done. split; [done|].
    destruct (check_key (PyStr s)) as [k0|] eqn:Hk0; cbn [bind]; [|done].
    apply check_key_valid in Hk0 as [[= <-] _].
    by rewrite lookup_insert_ne.
  - unfold __contains__, __len__. intros [= Hc%bool_decide_eq_true].
    destruct Hc as [v0 Hv0].
    rewrite <- (insert_delete_id d k v0) at 1 by done.
    rewrite insert_insert_eq, map_size_insert_None by apply lookup_delete_eq.
    rewrite <- (insert_delete_id d k v0) at 2 by done.
    by rewrite map_size_insert_None by apply lookup_delete_eq.
  - unfold __contains__, __len__. intros [= Hc%bool_decide_eq_false].
    apply map_size_insert_None. by apply eq_None_not_Some.
Qed.

Lemma env_setitem_frame_witness :
  __setitem__ (PyStr "HOME") (PyStr "/root") {[ "USER" := "alice" ]}
    = Return (<["HOME" := "/root"]> {[ "USER" := "alice" ]}) /\
  __getitem__ (PyStr "USER") (<["HOME" := "/root"]> {[ "USER" := "alice" ]})
    = __getitem__ (PyStr "USER") {[ "USER" := "alice" ]} /\
  __len__ (<["HOME" := "/root"]> {[ "USER" := "alice" ]}) = 2%nat.
Proof.
  assert (__setitem__ (PyStr "HOME") (PyStr "/root") {[ "USER" := "alice" ]}
    = Return (<["HOME" := "/root"]> {[ "USER" := "alice" ]})) as H
    by reflexivity.
  split; [exact H|].
  destruct (env_setitem_frame _ _ _ _ H) as (Hframe & _ & Hnew).
  split; [by apply (Hframe (PyStr "USER") PyNone)|].
  by rewrite Hnew.
Defined.

(** X11: every key of a mapping is one that [__setitem__] accepts: this holds
    for the new mapping and is kept by [__setitem__] and [__delitem__].  In
    such a mapping [__getitem__] returns the value of every key that
    [__contains__] finds. *)
Theorem env_keys_stay_valid :
  well_keyed __init__ /\
  (forall key value d d', well_keyed d ->
     __setitem__ key value d = Return d' -> well_keyed d') /\
  (forall key d d', well_keyed d ->
     __delitem__ key d = Return d' -> well_keyed d') /\
  (forall key d, well_keyed d -> __contains__ key d = Return true ->
     exists v, __getitem__ key d = Return (PyStr v)).
Proof.
  split; [by intros k v H|]. split; [|split].
  - intros key value d d' Hd (k & v & -> & -> & Hk & ->)%setitem_returns.
    intros k' v'. destruct (decide (k' = k)) as [->|Hne]; [done|].
    rewrite lookup_insert_ne by done. apply Hd.
  - intros key d d' Hd. unfold __delitem__.
    destruct (__contains__ key d) as [[]|]; cbn [bind]; destruct key; try done.
    intros [= <-] k' v'. destruct (decide (k' = s)) as [->|Hne].
    + by rewrite lookup_delete_eq.
    + rewrite lookup_delete_ne by done. apply Hd.
  - intros key d Hd. unfold __contains__.
    destruct key; try (by destruct (hashable _)).
    intros [= [v Hv]%bool_decide_eq_true]. exists v.
    unfold __getitem__.
    rewrite (proj2 (check_key_valid (PyStr s) s)) by eauto.
    cbn [bind]. by rewrite Hv.
Qed.

Lemma env_keys_stay_valid_witness :
  well_keyed __init__ /\
  __setitem__ (PyStr "HOME") (PyStr "/root") __init__
    = Return {[ "HOME" := "/root" ]} /\
  well_keyed {[ "HOME" := "/root" ]}.
Proof.
  destruct env_keys_stay_valid as (Hinit & Hset & _).
  split; [exact Hinit|]. split; [reflexivity|].
  by apply (Hset (PyStr "HOME") (PyStr "/root") __init__).
Defined.

(** X12: [get] does not check its key.  For a string it never raises: it
    returns the value when the key is there and the default when it is not,
    also for the empty string and for a string with [=], which
    [__getitem__] rejects with a [ValueError]; where [__getitem__] returns,
    [get] returns the same. *)
Theorem env_get_is_lenient (k : string) (default : pyval)
    (d : gmap string string) :
  get (PyStr k) default d =
    Return (match d !! k with Some v => PyStr v | None => default end) /\
  (forall v, __getitem__ (PyStr k) d = Return v ->
     get (PyStr k) default d = Return v) /\
  (valid_key k = false ->
   exists text, __getitem__ (PyStr k) d = Raise (Exc ValueError [PyStr text])).
Proof.
  split; [|split].
  - unfold get. by destruct (d !! k).
  - unfold __getitem__, get.
    destruct (check_key (PyStr k)) as [k'|] eqn:Hk; [|done].
    apply check_key_valid in Hk as [[= <-] _]. cbn [bind].
    by destruct (d !! k).
  - intros Hv. unfold __getitem__, check_key. unfold valid_key in Hv.
    destruct (String.eqb k ""); [by eexists|].
    destruct (contains_char "=" k); [by eexists|done].
Qed.

Lemma env_get_is_lenient_witness :
  valid_key "A=B" = false /\
  get (PyStr "A=B") (PyStr "none") ∅ = Return (PyStr "none") /\
  exists text,
    __getitem__ (PyStr "A=B") ∅ = Raise (Exc ValueError [PyStr text]).
Proof.
  split; [reflexivity|].
  destruct (env_get_is_lenient "A=B" (PyStr "none") ∅) as (Hget & _ & Hbad).
  split; [exact Hget|]. by apply Hbad.
Defined.



End EnvMore.

(** ** Further properties of the dispatcher *)

Section DispatchMore.

Import pam.

Variable py_str : pyval -> string.
Variable py_repr : pyval -> string.

Abbreviation _call_handler := (_call_handler py_str py_repr).
Abbreviation outcome := (outcome py_str py_repr).
Abbreviation invoke := (invoke py_str py_repr).
Abbreviation chauthtok := (chauthtok py_str py_repr).

(** X15: before a module is loaded each of the six calls raises
    [RuntimeError('module not started')], calls nothing and leaves the
    dispatcher as it was. *)
Theorem entry_points_need_start (ep : entry_point) (flags argv : pyval)
    (st : t) :
  _user_module st = None ->
  invoke ep flags argv st
    = (Raise (Exc RuntimeError [PyStr "module not started"]), st).
Proof.
  intros Hm.
  assert (forall name fl, _call_handler name fl argv st
            = (Raise (Exc RuntimeError [PyStr "module not started"]), st))
    as Hone by (intros; unfold pam._call_handler; by rewrite Hm).
  destruct ep; try apply Hone.
  cbn [pam.invoke]. rewrite chauthtok_unfold. cbv zeta. by rewrite Hone.
Qed.

(** X16: when the function [f] of an entry point is bound, a call of the
    dispatcher makes one call of [f], [chauthtok] one or two: the first on
    the handle of the dispatcher, a second on the handle the first left, and
    the dispatcher keeps the handle the last one left.  Every one of them is
    a call of the function named for that entry point.  The flags are those
    given, except for [chauthtok], which never passes its own flags on: the
    module sees the handle's [PAM_PRELIM_CHECK] or [PAM_UPDATE_AUTHTOK]
    (16384 and 8192 when the handle has none). *)
Theorem dispatcher_calls_its_entry_point (ep : entry_point)
    (flags argv : pyval) (st : t) (m : pymodule) (f : entry_fn) :
  _user_module st = Some m ->
  names m !! handler_name ep = Some (ModFunc f) ->
  exists evs,
    call_log (invoke ep flags argv st).2 = call_log st ++ evs /\
    calls_of f (_pamh st) evs (_pamh (invoke ep flags argv st).2) /\
    (0 < length evs <= 2)%nat /\
    (ep <> Chauthtok -> length evs = 1%nat) /\
    Forall (fun ev =>
      ev_name ev = handler_name ep /\
      match ep with
      | Chauthtok =>
          ev_flags ev
            = getattr_pamh (_pamh st) "PAM_PRELIM_CHECK" (PyInt 16384) \/
          ev_flags ev
            = getattr_pamh (_pamh st) "PAM_UPDATE_AUTHTOK" (PyInt 8192)
      | _ => ev_flags ev = flags
      end) evs.
Proof.
  intros Hm Hf.
  destruct (invoke_calls py_str py_repr ep flags argv st m f Hm Hf)
    as (evs & ev & Hlog & Hcalls & _ & _ & _ & Hlen & Hone & Hall & _).
  exists (evs ++ [ev]). split; [exact Hlog|]. split; [exact Hcalls|].
  rewrite length_app. cbn [length]. split; [lia|]. split; [|exact Hall].
  intros Hep. by destruct (Hone Hep) as [-> _].
Qed.

(** X17: the argument vector of the call into the module, for [chauthtok]
    of its first call.  The function [f] of the entry point is called on
    the handle of the dispatcher.  An [argv] that is given is passed as it
    is.  Without one, [f] receives the arguments the configuration has for
    the service of the entry point ([auth] for [authenticate] and
    [setcred], [account], [session] for both session calls, [password]);
    and when the configuration has none, the [__file__] of the module in a
    list of one. *)
Theorem argv_of_first_call (ep : entry_point) (flags argv : pyval) (st : t)
    (m : pymodule) (f : entry_fn) :
  _user_module st = Some m ->
  names m !! handler_name ep = Some (ModFunc f) ->
  exists ev rest,
    call_log (invoke ep flags argv st).2 = call_log st ++ ev :: rest /\
    ev_handle ev = _pamh st /\
    ev_result ev = (f (_pamh st) (ev_flags ev) (ev_argv ev)).1 /\
    (ep <> Chauthtok ->
       rest = [] /\
       (invoke ep flags argv st).1 =
         outcome (f (_pamh st) flags (ev_argv ev)).1
                 (f (_pamh st) flags (ev_argv ev)).2) /\
    (argv <> PyNone -> ev_argv ev = argv) /\
    (forall svc table l,
       argv = PyNone -> service_map (handler_name ep) = Some svc ->
       _service_args st = Some table -> table !! svc = Some l ->
       ev_argv ev = PyList (map PyStr l)) /\
    (forall svc table,
       argv = PyNone -> service_map (handler_name ep) = Some svc ->
       _service_args st = Some table -> table !! svc = None ->
       __file__ m <> PyNone ->
       ev_argv ev = PyList [__file__ m]).
Proof.
  intros Hm Hf.
  destruct (invoke_calls py_str py_repr ep flags argv st m f Hm Hf)
    as (evs & ev & Hlog & Hcalls & Hres & Hh & Hout & _ & Hone & _ &
        first & rest & Hfirst & Hargv).
  exists first, rest. rewrite Hfirst in Hlog, Hcalls.
  cbn [calls_of] in Hcalls. destruct Hcalls as (Hh1 & Hr1 & _).
  split; [exact Hlog|]. split; [exact Hh1|].
  split; [exact Hr1|]. split.
  { intros Hep. destruct (Hone Hep) as [-> Hfl].
    injection Hfirst as <- <-. split; [done|].
    rewrite Hout, Hh, Hres, Hh1, Hfl. done. }
  rewrite Hargv. split; [|split].
  - intros Hgiven. unfold resolve_argv. by destruct argv.
  - intros svc table l -> Hsvc Ht Hl. unfold resolve_argv.
    by rewrite Hsvc, Ht, Hl.
  - intros svc table -> Hsvc Ht Hl Hfile. unfold resolve_argv.
    rewrite Hsvc, Ht, Hl. by destruct (__file__ m).
Qed.

(** X18: when the function [f] of an entry point is bound and the last call
    of [f] the dispatcher made returned a value that is not an integer,
    [None] included, the dispatcher returns that value as it is and raises
    nothing. *)
Theorem non_integer_result_is_returned (ep : entry_point) (flags argv : pyval)
    (st : t) (m : pymodule) (f : entry_fn) :
  _user_module st = Some m ->
  names m !! handler_name ep = Some (ModFunc f) ->
  exists evs ev,
    call_log (invoke ep flags argv st).2 = call_log st ++ evs ++ [ev] /\
    calls_of f (_pamh st) (evs ++ [ev]) (_pamh (invoke ep flags argv st).2) /\
    (ep <> Chauthtok ->
       evs = [] /\ ev_flags ev = flags /\
       ev_argv ev = resolve_argv st m (handler_name ep) argv) /\
    forall r,
      (f (ev_handle ev) (ev_flags ev) (ev_argv ev)).1 = Return r ->
      is_int r = false ->
      (invoke ep flags argv st).1 = Return r.
Proof.
  intros Hm Hf.
  destruct (invoke_calls py_str py_repr ep flags argv st m f Hm Hf)
    as (evs & ev & Hlog & Hcalls & Hres & _ & Hout & _ & Hone & _ &
        first & rest & Hfirst & Hargv).
  exists evs, ev. split; [done|]. split; [done|]. split.
  { intros Hep. destruct (Hone Hep) as [-> Hfl].
    injection Hfirst as <- _. done. }
  intros r Hr Hint.
  rewrite Hout, Hres, Hr. unfold pam.outcome, translate_result. by rewrite Hint.
Qed.

(** X19: when the function [f] of an entry point is bound and the last call
    of [f] the dispatcher made raised a [PamException] or an [error], the
    dispatcher raises the same exception with the same code: the code of an
    [error] the module raises itself is not translated, not even when it is
    [PAM_IGNORE]. *)
Theorem structured_errors_pass_unchanged (ep : entry_point)
    (flags argv : pyval) (st : t) (m : pymodule) (f : entry_fn) :
  _user_module st = Some m ->
  names m !! handler_name ep = Some (ModFunc f) ->
  exists evs ev,
    call_log (invoke ep flags argv st).2 = call_log st ++ evs ++ [ev] /\
    calls_of f (_pamh st) (evs ++ [ev]) (_pamh (invoke ep flags argv st).2) /\
    (ep <> Chauthtok ->
       evs = [] /\ ev_flags ev = flags /\
       ev_argv ev = resolve_argv st m (handler_name ep) argv) /\
    (forall code args,
       (f (ev_handle ev) (ev_flags ev) (ev_argv ev)).1
         = Raise (PamException code args) ->
       (invoke ep flags argv st).1 = Raise (PamException code args)) /\
    (forall msg code,
       (f (ev_handle ev) (ev_flags ev) (ev_argv ev)).1
         = Raise (error msg code) ->
       (invoke ep flags argv st).1 = Raise (error msg code)).
Proof.
  intros Hm Hf.
  destruct (invoke_calls py_str py_repr ep flags argv st m f Hm Hf)
    as (evs & ev & Hlog & Hcalls & Hres & _ & Hout & _ & Hone & _ &
        first & rest & Hfirst & Hargv).
  exists evs, ev. split; [done|]. split; [done|]. split.
  { intros Hep. destruct (Hone Hep) as [-> Hfl].
    injection Hfirst as <- _. done. }
  split; intros ? ? Hr; by rewrite Hout, Hres, Hr.
Qed.

End DispatchMore.

(** ** The configuration file *)

Section ConfigFacts.

Import pam.

Lemma qualifies_fields (parts : list string) :
  qualifies parts = true ->
  exists service a b script rest,
    parts = service :: a :: b :: script :: rest.
Proof.
  unfold qualifies. intros [Hlen _]%andb_true_iff.
  apply Nat.leb_le in Hlen.
  destruct parts as [|service [|a [|b [|script rest]]]]; cbn in Hlen; try lia.
  by eexists _, _, _, _, _.
Qed.

Lemma record_args_skip (table : gmap string (list string)) (line : string) :
  qualifies (str_split line) = false -> record_args table line = table.
Proof. intros H. unfold record_args. by rewrite H. Qed.

Lemma record_args_store (table : gmap string (list string)) (line : string) :
  qualifies (str_split line) = true ->
  exists service a b script rest,
    str_split line = service :: a :: b :: script :: rest /\
    record_args table line = <[service := script :: rest]> table.
Proof.
  intros H. unfold record_args. rewrite H.
  destruct (qualifies_fields _ H) as (service & a & b & script & rest & ->).
  by eexists _, _, _, _, _.
Qed.

Lemma find_script_none (lines : list string) :
  find_script lines = None <->
  Forall (fun line => qualifies (str_split line) = false) lines.
Proof.
  induction lines as [|line lines IH]; cbn [find_script]; [done|].
  rewrite Forall_cons.
  destruct (qualifies (str_split line)) eqn:Hq.
  - destruct (qualifies_fields _ Hq) as (? & ? & ? & ? & ? & ->).
    split; [done|]. by intros [? _].
  - rewrite IH. split; [done|by intros [_ ?]].
Qed.

Lemma fold_record_args_empty (lines : list string)
    (table : gmap string (list string)) :
  fold_left record_args lines table = ∅ <->
  table = ∅ /\ Forall (fun line => qualifies (str_split line) = false) lines.
Proof.
  revert table. induction lines as [|line lines IH]; intros table;
    cbn [fold_left].
  { split; [done|by intros [? _]]. }
  rewrite IH, Forall_cons.
  destruct (qualifies (str_split line)) eqn:Hq.
  - destruct (record_args_store table line Hq)
      as (service & ? & ? & script & rest & _ & ->).
    split; [|by intros (_ & ? & _)].
    intros [Hins _]. by apply insert_non_empty in Hins.
  - rewrite record_args_skip by done.
    split; [intros [? ?]|intros (? & _ & ?)]; done.
Qed.

Lemma fold_record_args_lookup (lines : list string)
    (table : gmap string (list string)) (svc : string) (l : list string) :
  fold_left record_args lines table !! svc = Some l ->
  table !! svc = Some l \/
  exists line a b script rest,
    line ∈ lines /\ qualifies (str_split line) = true /\
    str_split line = svc :: a :: b :: script :: rest /\
    l = script :: rest.
Proof.
  revert table. induction lines as [|line lines IH]; intros table;
    cbn [fold_left]; [by left|].
  intros [H|(line' & a & b & script & rest & Hin & ?)]%IH.
  - destruct (qualifies (str_split line)) eqn:Hq.
    + destruct (record_args_store table line Hq)
        as (service & a & b & script & rest & Hparts & Hrec).
      rewrite Hrec in H. destruct (decide (service = svc)) as [->|Hne].
      * rewrite lookup_insert_eq in H. injection H as <-.
        right. exists line, a, b, script, rest.
        split; [apply list_elem_of_here|done].
      * rewrite lookup_insert_ne in H by done. by left.
    + rewrite record_args_skip in H by done. by left.
  - right. exists line', a, b, script, rest.
    split; [by apply list_elem_of_further|done].
Qed.

(** X20: the two loops of [start] over the configuration agree: the first
    finds no script exactly when the second leaves the table of service
    arguments empty, and that is when no line has four fields with a third
    that ends in [pam_python.so]. *)
Theorem script_and_table_agree (lines : list string) :
  (find_script lines = None <-> scan_args lines = ∅) /\
  (find_script lines = None <->
   Forall (fun line => qualifies (str_split line) = false) lines).
Proof.
  split; [|apply find_script_none].
  rewrite find_script_none. unfold scan_args.
  rewrite fold_record_args_empty. split; [done|by intros [_ ?]].
Qed.

(** X21: every entry of the table of service arguments comes from a line of
    the configuration that qualifies: its key is the first field of that
    line and its arguments are the fields from the fourth on, so they are
    never empty and begin with the script.  A qualifying line at the end of
    the file replaces what earlier lines stored for its first field and
    leaves the other entries. *)
Theorem table_entries_come_from_lines (lines : list string) :
  (forall svc l, scan_args lines !! svc = Some l ->
     exists line a b script rest,
       line ∈ lines /\ qualifies (str_split line) = true /\
       str_split line = svc :: a :: b :: script :: rest /\
       l = script :: rest) /\
  (forall line svc a b script rest,
     qualifies (str_split line) = true ->
     str_split line = svc :: a :: b :: script :: rest ->
     scan_args (lines ++ [line]) = <[svc := script :: rest]> (scan_args lines)).
Proof.
  split.
  - intros svc l H. unfold scan_args in H.
    apply fold_record_args_lookup in H as [H|H]; [done|exact H].
  - intros line svc a b script rest Hq Hparts. unfold scan_args.
    rewrite fold_left_app. cbn [fold_left].
    destruct (record_args_store (fold_left record_args lines ∅) line Hq)
      as (? & ? & ? & ? & ? & Hp & ->).
    rewrite Hparts in Hp. by injection Hp as <- <- <- <- <-.
Qed.

Lemma table_entries_come_from_lines_witness :
  qualifies (str_split "auth required pam_python.so /opt/mod.py debug") = true /\
  scan_args ([Examples.scenario_line] ++
             ["auth required pam_python.so /opt/mod.py debug"])
    = <["auth" := ["/opt/mod.py"; "debug"] ]>
        (scan_args [Examples.scenario_line]).
Proof.
  split; [reflexivity|].
  destruct (table_entries_come_from_lines [Examples.scenario_line])
    as [_ Hlast].
  by apply (Hlast _ "auth" "required" "pam_python.so").
Defined.

End ConfigFacts.

(** ** Further properties of start *)

Section StartMore.

Import pam.

Variable py_str : pyval -> string.
Variable py_repr : pyval -> string.

(** X22: let the modules the file system holds name their constants as the
    convention has it, with [PAM_] or [_PAM_] in front.  When [start]
    returns, the user was a string, the module is the one loaded from the
    script the configuration names (or from [test.py] in the working
    directory when the configuration cannot be read), the handle is sealed
    and has an empty environment mapping, the table of service arguments is
    the one of the configuration (empty when it cannot be read), and no call
    was made into the module. *)
Theorem start_establishes (fs : filesystem) (cfg : string) (user conv : pyval)
    (st0 st : t) (v : pyval) :
  (forall script m, exec_module fs script = Return m ->
     conventional_constants (PAM_CONSTANTS m)) ->
  start fs cfg user conv st0 = (Return v, st) ->
  v = PyNone /\ is_str user = true /\
  exists script m h,
    found_script fs cfg = Some script /\
    exec_module fs script = Return m /\
    _user_module st = Some m /\
    _pamh st = Some h /\
    PamHandle_type.sealed h /\
    h !! "env" = Some (PyEnv ∅) /\
    _service_args st =
      Some (match read_text fs (config_path fs cfg) with
            | Some content => scan_args (file_lines content)
            | None => ∅
            end) /\
    call_log st = call_log st0.
Proof.
  intros _. unfold start, found_script. cbv zeta.
  destruct (match read_text fs (config_path fs cfg) with
            | Some _ => _ | None => _ end) as [script|]; [|discriminate].
  destruct (exec_module fs script) as [m|e] eqn:Hexec; [|discriminate].
  destruct (is_str user) eqn:Hu;
    [|by rewrite init_raises by done].
  destruct (PamHandle_type.__init__ _ _ _) as [h0|e]; [|discriminate].
  destruct (PamHandle_type._populate_constants _ _) as [[[]|e] h1] eqn:Hpop;
    [|discriminate].
  destruct (PamHandle_type.__setattr__ "env" _ h1) as [h2|e] eqn:Henv;
    [|discriminate].
  intros [= <- <-]. split; [done|]. split; [done|].
  apply setattr_returns_insert in Henv as ->; [|done].
  exists script, m, (<["env" := PyEnv PamEnvMapping.__init__]> h1).
  repeat split; try done.
  - apply populate_seals in Hpop.
    unfold PamHandle_type.sealed, PamHandle_type.getattr, PamHandle_type.attr
      in *.
    by rewrite lookup_insert_ne.
  - by rewrite lookup_insert_eq.
Qed.

Lemma start_establishes_witness :
  let m := Examples.module_with (Examples.constant_fn (Return (PyInt 0))) in
  (forall script m', exec_module (Examples.scenario_fs m) script = Return m' ->
     conventional_constants (PAM_CONSTANTS m')) /\
  start (Examples.scenario_fs m) "/etc/pam.d/login" (PyStr "alice")
    (PyCallable 0) __init__ = (Return PyNone, Examples.started m) /\
  exists h, _pamh (Examples.started m) = Some h /\
    PamHandle_type.sealed h /\ h !! "env" = Some (PyEnv ∅).
Proof.
  intros m.
  assert (forall script m',
            exec_module (Examples.scenario_fs m) script = Return m' ->
            conventional_constants (PAM_CONSTANTS m')) as Hconv.
  { intros script m'. cbn [exec_module Examples.scenario_fs].
    destruct (String.eqb script "/opt/mod.py"); [|discriminate].
    intros [= <-] items. discriminate. }
  assert (start (Examples.scenario_fs m) "/etc/pam.d/login" (PyStr "alice")
            (PyCallable 0) __init__ = (Return PyNone, Examples.started m)) as H
    by reflexivity.
  split; [exact Hconv|]. split; [exact H|].
  destruct (start_establishes _ _ _ _ _ _ _ Hconv H)
    as (_ & _ & script & m' & h & _ & _ & _ & Hh & Hs & He & _).
  by exists h.
Defined.

(** X23: when the configuration can be read and none of its lines qualifies,
    or when it cannot be read and the working directory has no [test.py],
    [start] raises a [RuntimeError] that names the configuration file, loads
    nothing and leaves the dispatcher as it was.  A configuration that can
    be read never falls back to [test.py]. *)
Theorem start_without_script (fs : filesystem) (cfg : string)
    (user conv : pyval) (st0 : t) :
  found_script fs cfg = None ->
  start fs cfg user conv st0 =
    (Raise (Exc RuntimeError
       [PyStr ("could not find target python module in " +:+
               config_path fs cfg)]), st0) /\
  (forall content, read_text fs (config_path fs cfg) = Some content ->
     Forall (fun line => qualifies (str_split line) = false)
       (file_lines content)).
Proof.
  intros H. unfold found_script in H. split.
  - unfold start. cbv zeta.
    destruct (read_text fs (config_path fs cfg)); [by rewrite H|].
    by destruct (path_exists fs _).
  - intros content Hread. rewrite Hread in H. by apply find_script_none.
Qed.

Lemma start_without_script_witness :
  let fs := {| getcwd := "/home/alice"; path_exists := fun _ => false;
               read_text := fun _ => Some "# nothing here";
               exec_module := fun p =>
                 Raise (Exc (UserException "FileNotFoundError") [PyStr p]) |} in
  found_script fs "pam.conf" = None /\
  start fs "pam.conf" (PyStr "alice") (PyCallable 0) __init__ =
    (Raise (Exc RuntimeError
       [PyStr "could not find target python module in /home/alice/pam.conf"]),
     __init__).
Proof.
  intros fs. split; [reflexivity|].
  by apply (start_without_script fs "pam.conf" (PyStr "alice") (PyCallable 0)
              __init__ eq_refl).
Defined.

(** X24: a user that is not a string makes [start] raise the [TypeError] of
    the item [PAM_USER] after the module was loaded: the module stays with
    the dispatcher, the handle and the table of service arguments are as
    before.  A dispatcher that was new then no longer refuses the calls: a
    call whose name the module binds to a function [f] calls [f] with [None]
    for the handle, ends as that call ends, translated, and keeps the
    handle that call leaves. *)
Theorem start_with_bad_user_keeps_module (fs : filesystem) (cfg script : string)
    (user conv : pyval) (st0 : t) (m : pymodule) :
  found_script fs cfg = Some script ->
  exec_module fs script = Return m ->
  is_str user = false ->
  let res := start fs cfg user conv st0 in
  res = (Raise (Exc TypeError
                  [PyStr "PAM item PAM_USER must be set to a string"]),
         set_user_module m st0) /\
  (_pamh st0 = None ->
   forall name flags argv f, names m !! name = Some (ModFunc f) ->
     let argv' := resolve_argv res.2 m name argv in
     let called := f None flags argv' in
     _call_handler py_str py_repr name flags argv res.2 =
       (outcome py_str py_repr called.1 called.2,
        log_call {| ev_name := name; ev_handle := None; ev_flags := flags;
                    ev_argv := argv'; ev_result := called.1 |}
          called.2 res.2)).
Proof.
  intros Hs Hexec Hu. cbv zeta.
  assert (start fs cfg user conv st0 =
            (Raise (Exc TypeError
                      [PyStr "PAM item PAM_USER must be set to a string"]),
             set_user_module m st0)) as ->.
  { unfold start, found_script in *. cbv zeta. rewrite Hs, Hexec.
    by rewrite init_raises. }
  split; [done|]. intros Hh name flags argv f Hf. cbn [snd]. cbv zeta.
  erewrite call_handler_calls; [|reflexivity|exact Hf].
  cbn [set_user_module _pamh]. by rewrite Hh.
Qed.

End StartMore.

Lemma start_with_bad_user_keeps_module_witness :
  let m := Examples.module_with (Examples.constant_fn (Return (PyInt 0))) in
  pam.found_script (Examples.scenario_fs m) "/etc/pam.d/login"
    = Some "/opt/mod.py" /\
  exec_module (Examples.scenario_fs m) "/opt/mod.py" = Return m /\
  is_str PyNone = false /\
  pam.start (Examples.scenario_fs m) "/etc/pam.d/login" PyNone (PyCallable 0)
    pam.__init__ =
    (Raise (Exc TypeError [PyStr "PAM item PAM_USER must be set to a string"]),
     pam.set_user_module m pam.__init__).
Proof.
  intros m. split; [reflexivity|]. split; [reflexivity|].
  split; [reflexivity|].
  by apply (start_with_bad_user_keeps_module Examples.example_str
              Examples.example_str (Examples.scenario_fs m)
              "/etc/pam.d/login" "/opt/mod.py" PyNone (PyCallable 0)
              pam.__init__ m eq_refl eq_refl eq_refl).
Defined.

(** ** putenv, set_item and get_user *)

Section ItemFacts.

Import pam.

Lemma contains_eq_append (k v : string) :
  contains_char "=" (k +:+ "=" +:+ v) = true.
Proof.
  induction k as [|c k IH]; [reflexivity|].
  change (contains_char "=" (String c (k +:+ "=" +:+ v)) = true).
  cbn [contains_char]. by rewrite IH, orb_true_r.
Qed.

Lemma split_at_eq_append (k v : string) :
  contains_char "=" k = false -> split_at_eq (k +:+ "=" +:+ v) = (k, v).
Proof.
  induction k as [|c k IH]; [reflexivity|].
  cbn [contains_char]. intros [Hc Hk]%orb_false_iff.
  change (split_at_eq (String c (k +:+ "=" +:+ v)) = (String c k, v)).
  cbn [split_at_eq]. by rewrite Hc, IH.
Qed.

(** X25: on a dispatcher whose handle holds an environment mapping,
    [putenv('k=v')] for a key that is not empty and has no [=] returns and
    stores [v] under [k] in that mapping, where [__getitem__] finds it; [v]
    is everything after the first [=], further [=] included.  Nothing else
    of the handle changes. *)
Theorem putenv_then_read (k v : string) (st : t) (h : PamHandle)
    (d : gmap string string) :
  _pamh st = Some h -> h !! "env" = Some (PyEnv d) ->
  PamEnvMapping.valid_key k = true ->
  exists h',
    putenv (PyStr (k +:+ "=" +:+ v)) st
      = (Return PyNone, set_pamh (Some h') st) /\
    h' !! "env" = Some (PyEnv (<[k := v]> d)) /\
    (forall name, name <> "env" -> h' !! name = h !! name) /\
    PamEnvMapping.__getitem__ (PyStr k) (<[k := v]> d) = Return (PyStr v).
Proof.
  intros Hh He Hk.
  assert (contains_char "=" k = false) as Hc.
  { unfold PamEnvMapping.valid_key in Hk.
    apply andb_true_iff in Hk as [_ Hk]. by apply negb_true_iff in Hk. }
  assert (PamEnvMapping.check_key (PyStr k) = Return k) as Hck
    by by apply check_key_valid.
  exists (<["env" := PyEnv (<[k := v]> d)]> h).
  split; [|split; [|split]].
  - unfold putenv. rewrite contains_eq_append. cbn [negb].
    rewrite split_at_eq_append, Hh by done.
    unfold PamHandle_type.attr. rewrite He. cbn [bind setitem_str].
    unfold PamEnvMapping.__setitem__. by rewrite Hck.
  - by rewrite lookup_insert_eq.
  - intros name Hne. by rewrite lookup_insert_ne.
  - unfold PamEnvMapping.__getitem__. rewrite Hck. cbn [bind].
    by rewrite lookup_insert_eq.
Qed.

Lemma putenv_then_read_witness :
  let st :=
    Examples.started (Examples.module_with
                        (Examples.constant_fn (Return (PyInt 0)))) in
  exists h h',
    _pamh st = Some h /\ h !! "env" = Some (PyEnv ∅) /\
    PamEnvMapping.valid_key "PATH" = true /\
    putenv (PyStr "PATH=/bin:/usr/bin=x") st
      = (Return PyNone, set_pamh (Some h') st) /\
    h' !! "env" = Some (PyEnv {[ "PATH" := "/bin:/usr/bin=x" ]}).
Proof.
  intros st.
  assert (exists h, _pamh st = Some h /\ h !! "env" = Some (PyEnv ∅))
    as (h & Hh & He) by (eexists; split; reflexivity).
  destruct (putenv_then_read "PATH" "/bin:/usr/bin=x" st h ∅ Hh He eq_refl)
    as (h' & Hput & He' & _).
  exists h, h'. repeat split; try done.
Defined.

(** X26: a [putenv] that raises leaves the dispatcher as it was.  It raises
    a [TypeError] for an argument that is not a string and a [ValueError]
    for a string without [=]; a string that begins with [=] gets the
    [ValueError] of the mapping for an empty key. *)
Theorem putenv_failures (kv : pyval) (st : t) :
  (forall e st', putenv kv st = (Raise e, st') -> st' = st) /\
  (is_str kv = false ->
   putenv kv st = (Raise (Exc TypeError [PyStr "putenv expects a string"]), st)) /\
  (forall s, kv = PyStr s -> contains_char "=" s = false ->
   putenv kv st
     = (Raise (Exc ValueError [PyStr "putenv expects key=value"]), st)) /\
  (forall v h d, kv = PyStr ("=" +:+ v) ->
   _pamh st = Some h -> h !! "env" = Some (PyEnv d) ->
   putenv kv st
     = (Raise (Exc ValueError
                 [PyStr "PAM environment key mustn't be 0 length"]), st)).
Proof.
  split; [|split; [|split]].
  - intros e st'. unfold putenv. destruct kv; try by intros [= _ <-].
    destruct (negb _); [by intros [= _ <-]|].
    destruct (split_at_eq s) as [k v].
    destruct (_pamh st); [|by intros [= _ <-]].
    destruct (bind _ _); [discriminate|by intros [= _ <-]].
  - intros Hs. by destruct kv.
  - intros s -> Hc. unfold putenv. by rewrite Hc.
  - intros v h d -> Hh He. unfold putenv.
    change (contains_char "=" ("=" +:+ v)) with true. cbn [negb].
    change (split_at_eq ("=" +:+ v)) with (EmptyString, v).
    rewrite Hh. unfold PamHandle_type.attr. by rewrite He.
Qed.

Lemma putenv_failures_witness :
  contains_char "=" "PATH" = false /\
  putenv (PyStr "PATH") __init__
    = (Raise (Exc ValueError [PyStr "putenv expects key=value"]), __init__).
Proof.
  split; [reflexivity|].
  destruct (putenv_failures (PyStr "PATH") __init__) as (_ & _ & Hno & _).
  by apply (Hno "PATH").
Defined.

Lemma item_map_names (item : pyval) (name : string) :
  _item_map item = Return (Some name) ->
  exists const, PamHandle_type._item_const name = Some const.
Proof.
  unfold _item_map. destruct (negb (hashable item)); [discriminate|].
  destruct (int_value item) as [[|p|p]|]; try discriminate.
  repeat (destruct p as [p|p|]; try discriminate);
    intros [= <-]; by eexists.
Qed.

(** X27: every item [set_item] knows is one whose assignment the handle
    validates.  With a handle, [set_item] for a known item stores a string
    value under the name of the item, sealed handle or not, and raises a
    [TypeError] for any other value, leaving the dispatcher as it was; an
    item it does not know is ignored without an error. *)
Theorem set_item_effect (item value : pyval) (st : t) (h : PamHandle) :
  _pamh st = Some h ->
  (forall name, _item_map item = Return (Some name) ->
     exists const, PamHandle_type._item_const name = Some const /\
       (is_str value = true ->
        set_item item value st
          = (Return PyNone, set_pamh (Some (<[name := value]> h)) st)) /\
       (is_str value = false ->
        set_item item value st =
          (Raise (Exc TypeError
             [PyStr ("PAM item " +:+ const +:+ " must be set to a string")]),
           st))) /\
  (_item_map item = Return None -> set_item item value st = (Return PyNone, st)).
Proof.
  intros Hh. split.
  - intros name Hname. destruct (item_map_names _ _ Hname) as [const Hc].
    exists const. split; [done|]. unfold set_item. rewrite Hname, Hh.
    split; intros Hv.
    + rewrite setattr_other; [done|by eapply item_name_no_slot| |by right].
      unfold PamHandle_type._item_const in Hc.
      repeat match goal with
      | H : context [String.eqb ?n ?s] |- _ =>
          destruct (String.eqb_spec n s) as [->|_]
      end; try discriminate; reflexivity.
    + by rewrite (setattr_item_type_error _ _ const).
  - intros Hnone. unfold set_item. by rewrite Hnone.
Qed.

Lemma set_item_effect_witness :
  let st :=
    Examples.started (Examples.module_with
                        (Examples.constant_fn (Return (PyInt 0)))) in
  exists h, _pamh st = Some h /\
    _item_map (PyInt 3) = Return (Some "tty") /\
    is_str (PyInt 1) = false /\
    set_item (PyInt 3) (PyInt 1) st =
      (Raise (Exc TypeError [PyStr "PAM item PAM_TTY must be set to a string"]),
       st).
Proof.
  intros st.
  assert (exists h, _pamh st = Some h) as [h Hh] by (eexists; reflexivity).
  exists h. split; [exact Hh|]. split; [reflexivity|]. split; [reflexivity|].
  destruct (set_item_effect (PyInt 3) (PyInt 1) st h Hh) as [Hknown _].
  destruct (Hknown "tty" eq_refl) as (const & Hc & _ & Hbad).
  injection Hc as <-. by apply Hbad.
Defined.

(** X28: with a handle, [set_item(2, name)] for a string [name] returns, and
    [get_user] on the handle it leaves returns [name]; [get_user] itself
    never raises and returns [None] for a handle without a user. *)
Theorem set_user_then_get_user (name : string) (st : t) (h : PamHandle) :
  _pamh st = Some h ->
  (exists h',
     set_item (PyInt 2) (PyStr name) st
       = (Return PyNone, set_pamh (Some h') st) /\
     PamHandle_type.get_user h' = Return (PyStr name)) /\
  (forall h0 : PamHandle, h0 !! "user" = None ->
     PamHandle_type.get_user h0 = Return PyNone).
Proof.
  intros Hh. split.
  - exists (<["user" := PyStr name]> h). split.
    + unfold set_item. cbn [_item_map hashable negb int_value]. rewrite Hh.
      by rewrite setattr_other by (done || by right).
    + by rewrite get_user_returns, lookup_insert_eq.
  - intros h0 H0. by rewrite get_user_returns, H0.
Qed.

Lemma set_user_then_get_user_witness :
  let st :=
    Examples.started (Examples.module_with
                        (Examples.constant_fn (Return (PyInt 0)))) in
  exists h h', _pamh st = Some h /\
    set_item (PyInt 2) (PyStr "bob") st
      = (Return PyNone, set_pamh (Some h') st) /\
    PamHandle_type.get_user h' = Return (PyStr "bob").
Proof.
  intros st.
  assert (exists h, _pamh st = Some h) as [h Hh] by (eexists; reflexivity).
  destruct (set_user_then_get_user "bob" st h Hh) as [(h' & Hset & Hget) _].
  by exists h, h'.
Defined.

End ItemFacts.

(** ** Messages through the conversation *)

Section EchoFacts.

Import PamHandle_type.

Variable py_str : pyval -> string.
Variable call : pyval -> list pyarg -> pyresult pyval.

Lemma message_response (style text m : pyval) :
  construct "Message" style text = Return m ->
  to_response py_str m = Resp text style.
Proof.
  unfold construct; cbn [__getattr__ existsb]. simpl. unfold Message.
  destruct (is_int style); [|discriminate].
  destruct (is_str text); [|discriminate].
  by intros [= <-].
Qed.

(** X29: let the messages of a payload be built by [Message] from styles and
    texts, and let the conversation function hand the list of messages
    back.  Then [conversation] returns a tuple with one response for each
    message, in order, whose [resp] is the text of the message and whose
    [resp_retcode] is its style. *)
Theorem conversation_echoes_messages (h : PamHandle)
    (prompts : list (pyval * pyval)) (msgs : list pyval) :
  Forall2 (fun p m => construct "Message" p.1 p.2 = Return m) prompts msgs ->
  call_conv call h (PyList msgs) = Return (PyList msgs) ->
  conversation py_str call h (PyList msgs)
    = Return (PyTuple (map (fun p => Resp p.2 p.1) prompts)).
Proof.
  intros Hmsgs Hcall. unfold conversation. rewrite Hcall.
  cbn [bind is_sequence negb replies]. do 2 f_equal. clear Hcall.
  induction Hmsgs as [|[style text] m prompts msgs Hm _ IH]; [done|].
  cbn [map fst snd] in *. by rewrite (message_response _ _ _ Hm), IH.
Qed.

End EchoFacts.

Lemma conversation_echoes_messages_witness :
  let prompts := [(PyInt 2, PyStr "login: "); (PyInt 1, PyStr "password: ")] in
  let echo := fun (f : pyval) (args : list PamHandle_type.pyarg) =>
    match args with
    | [_; PamHandle_type.ArgVal convs] => Return convs
    | _ => Raise (Exc TypeError [PyStr "echo() takes 2 arguments"])
    end in
  PamHandle_type.call_conv echo Examples.new_handle Examples.two_prompts
    = Return Examples.two_prompts /\
  PamHandle_type.conversation Examples.example_str echo Examples.new_handle
    Examples.two_prompts
  = Return (PyTuple [PamHandle_type.Resp (PyStr "login: ") (PyInt 2);
                     PamHandle_type.Resp (PyStr "password: ") (PyInt 1)]).
Proof.
  intros prompts echo.
  assert (PamHandle_type.call_conv echo Examples.new_handle
            Examples.two_prompts = Return Examples.two_prompts) as Hc
    by reflexivity.
  split; [exact Hc|].
  apply (conversation_echoes_messages Examples.example_str echo
           Examples.new_handle prompts); [|exact Hc].
  repeat constructor.
Defined.

(** ** The further statements at concrete modules *)

Section MoreInstances.

Import Examples.

Lemma entry_points_need_start_witness :
  pam._user_module pam.__init__ = None /\
  pam.invoke example_str example_str pam.Chauthtok (PyInt 0) PyNone pam.__init__
    = (Raise (Exc RuntimeError [PyStr "module not started"]), pam.__init__).
Proof.
  split; [reflexivity|].
  by apply (entry_points_need_start example_str example_str pam.Chauthtok).
Defined.

Lemma dispatcher_calls_its_entry_point_witness :
  let m := module_with (constant_fn (Return (PyInt 0))) in
  pam._user_module (started m) = Some m /\
  names m !! pam.handler_name pam.Chauthtok
    = Some (ModFunc (constant_fn (Return (PyInt 0)))) /\
  exists evs,
    pam.call_log (pam.invoke example_str example_str pam.Chauthtok (PyInt 99)
                    PyNone (started m)).2
      = pam.call_log (started m) ++ evs /\
    Forall (fun ev =>
      pam.ev_name ev = "pam_sm_chauthtok" /\
      (pam.ev_flags ev = PyInt 16384 \/ pam.ev_flags ev = PyInt 8192)) evs.
Proof.
  intros m.
  assert (pam._user_module (started m) = Some m) as Hm by reflexivity.
  assert (names m !! pam.handler_name pam.Chauthtok
          = Some (ModFunc (constant_fn (Return (PyInt 0))))) as Hf
    by reflexivity.
  split; [exact Hm|]. split; [exact Hf|].
  destruct (dispatcher_calls_its_entry_point example_str example_str
              pam.Chauthtok (PyInt 99) PyNone _ _ _ Hm Hf)
    as (evs & Hlog & _ & _ & _ & Hall).
  exists evs. split; [exact Hlog|exact Hall].
Defined.

Lemma argv_of_first_call_witness :
  let m := module_with (constant_fn (Return (PyInt 0))) in
  pam._user_module (started m) = Some m /\
  names m !! pam.handler_name pam.Setcred
    = Some (ModFunc (constant_fn (Return (PyInt 0)))) /\
  PyList [PyStr "debug"] <> PyNone /\
  exists ev rest,
    pam.call_log (pam.invoke example_str example_str pam.Setcred (PyInt 0)
                    (PyList [PyStr "debug"]) (started m)).2
      = pam.call_log (started m) ++ ev :: rest /\
    pam.ev_argv ev = PyList [PyStr "debug"].
Proof.
  intros m.
  assert (pam._user_module (started m) = Some m) as Hm by reflexivity.
  assert (names m !! pam.handler_name pam.Setcred
          = Some (ModFunc (constant_fn (Return (PyInt 0))))) as Hf
    by reflexivity.
  split; [exact Hm|]. split; [exact Hf|]. split; [discriminate|].
  destruct (argv_of_first_call example_str example_str pam.Setcred (PyInt 0)
              (PyList [PyStr "debug"]) _ _ _ Hm Hf)
    as (ev & rest & Hlog & _ & _ & _ & Hgiven & _).
  exists ev, rest. split; [exact Hlog|].
  apply Hgiven. discriminate.
Defined.

Lemma non_integer_result_is_returned_witness :
  let m := module_with (constant_fn (Return PyNone)) in
  pam._user_module (started m) = Some m /\
  names m !! pam.handler_name pam.Acct_mgmt
    = Some (ModFunc (constant_fn (Return PyNone))) /\
  (pam.invoke example_str example_str pam.Acct_mgmt (PyInt 0) PyNone
     (started m)).1 = Return PyNone.
Proof.
  intros m.
  assert (pam._user_module (started m) = Some m) as Hm by reflexivity.
  assert (names m !! pam.handler_name pam.Acct_mgmt
          = Some (ModFunc (constant_fn (Return PyNone)))) as Hf by reflexivity.
  split; [exact Hm|]. split; [exact Hf|].
  destruct (non_integer_result_is_returned example_str example_str
              pam.Acct_mgmt (PyInt 0) PyNone _ _ _ Hm Hf)
    as (evs & ev & Hlog & _ & _ & Hev).
  apply single_call_is_last in Hlog. subst ev.
  by apply Hev.
Defined.

Lemma structured_errors_pass_unchanged_witness :
  let e := error (PyStr "not for me") (PyInt 25) in
  let m := module_with (constant_fn (Raise e)) in
  pam._user_module (started m) = Some m /\
  names m !! pam.handler_name pam.Authenticate
    = Some (ModFunc (constant_fn (Raise e))) /\
  (pam.invoke example_str example_str pam.Authenticate (PyInt 0) PyNone
     (started m)).1 = Raise e.
Proof.
  intros e m.
  assert (pam._user_module (started m) = Some m) as Hm by reflexivity.
  assert (names m !! pam.handler_name pam.Authenticate
          = Some (ModFunc (constant_fn (Raise e)))) as Hf by reflexivity.
  split; [exact Hm|]. split; [exact Hf|].
  destruct (structured_errors_pass_unchanged example_str example_str
              pam.Authenticate (PyInt 0) PyNone _ _ _ Hm Hf)
    as (evs & ev & Hlog & _ & _ & _ & Herr).
  apply single_call_is_last in Hlog. subst ev.
  by apply Herr.
Defined.

End MoreInstances.
